(** * The log viewer of the BunkerWeb admin UI (src/ui/static/js/logs.js)

    A shallow embedding of the two classes of [logs.js] that carry the
    behaviour of the page: [FetchLogs] (settings, the range fetch, the
    incremental poll and its re-arming timer) and [FilterLogs] (the type and
    keyword visibility filters over the rendered rows).

    The script runs in a browser.  What it takes from the browser is kept
    explicit:
    - JavaScript values, truthiness and string conversion ([Js]);
    - the two conversions between strings and numbers, which the script
      triggers implicitly ([value * 1000], template literals), as an
      interface ([Js.Host]);
    - the form controls it reads, the list it renders into, the timers it
      arms, the requests it sends and the console ([FetchLogs.world]). *)

From Stdlib Require Import String Ascii List ZArith QArith Bool Lia DecimalString.
Import ListNotations.
Close Scope Q_scope.
Open Scope string_scope.

(** ** JavaScript values *)

Module Js.

(** A JavaScript number: the finite ones are read as rationals, which covers
    the timestamps and delays of this script; the script never inspects more
    of a product than whether it is zero or [NaN]. *)
Inductive number : Type :=
| NaN
| Infinity (negative : bool)
| Fin (q : Q).

Inductive value : Type :=
| undefined
| null
| Bool (b : bool)
| Num (n : number)
| Str (s : string).

Definition int (z : Z) : number := Fin (inject_Z z).

Definition is_zero (q : Q) : bool := Qeq_bool q (inject_Z 0).

Definition is_negative (q : Q) : bool := (Qnum q <? 0)%Z.

(** ToBoolean. *)
Definition number_truthy (n : number) : bool :=
  match n with
  | NaN => false
  | Infinity _ => true
  | Fin q => negb (is_zero q)
  end.

Definition truthy (v : value) : bool :=
  match v with
  | undefined => false
  | null => false
  | Bool b => b
  | Num n => number_truthy n
  | Str s => negb (s =? "")
  end.

(** The operator [*] on two numbers. *)
Definition mul (a b : number) : number :=
  match a, b with
  | NaN, _ | _, NaN => NaN
  | Infinity s, Infinity t => Infinity (xorb s t)
  | Infinity s, Fin q | Fin q, Infinity s =>
      if is_zero q then NaN else Infinity (xorb s (is_negative q))
  | Fin p, Fin q => Fin (Qmult p q)
  end.

(** Order on numbers, false as soon as one side is [NaN]. *)
Definition leb (a b : number) : bool :=
  match a, b with
  | NaN, _ | _, NaN => false
  | Infinity true, _ => true
  | _, Infinity false => true
  | Infinity false, _ => false
  | _, Infinity true => false
  | Fin p, Fin q => Qle_bool p q
  end.

(** The conversions of the language between strings and numbers:
    [ToNumber] applied to a string (as in ["5" * 1000]) and [ToString]
    applied to a number (as in a template literal). *)
Class Host : Type := {
  ToNumber : string -> number;
  NumberToString : number -> string
}.

Section Conversions.
Context `{Host}.

Definition ToString (v : value) : string :=
  match v with
  | undefined => "undefined"
  | null => "null"
  | Bool true => "true"
  | Bool false => "false"
  | Num n => NumberToString n
  | Str s => s
  end.

(** ToNumber on the values the script multiplies or hands to a timer. *)
Definition ToNumberV (v : value) : number :=
  match v with
  | undefined => NaN
  | null => int 0
  | Bool true => int 1
  | Bool false => int 0
  | Num n => n
  | Str s => ToNumber s
  end.

(** [s + v] with a string on the left: concatenation with [ToString v]. *)
Definition plus (s : string) (v : value) : string := s ++ ToString v.
End Conversions.

(** White space and line terminators, as [String.prototype.trim] strips
    them.  A text is its UTF-8 bytes, so a character above U+007F is two or
    three of them: the one-byte ones are TAB, LF, VT, FF, CR and SP; the
    two-byte one is U+00A0; the three-byte ones are U+1680, U+2000 to
    U+200A, U+2028, U+2029, U+202F, U+205F, U+3000 and U+FEFF. *)
Definition isWhiteSpace (c : ascii) : bool :=
  existsb (Ascii.eqb c) ["009"; "010"; "011"; "012"; "013"; " "]%char.

Definition isWhiteSpace2 (a b : ascii) : bool :=
  Ascii.eqb a "194" && Ascii.eqb b "160".

Definition isWhiteSpace3 (a b c : ascii) : bool :=
  (Ascii.eqb a "225" && Ascii.eqb b "154" && Ascii.eqb c "128")
  || (Ascii.eqb a "226" && Ascii.eqb b "128"
      && ((N.leb 128 (N_of_ascii c) && N.leb (N_of_ascii c) 138)
          || existsb (Ascii.eqb c) ["168"; "169"; "175"]%char))
  || (Ascii.eqb a "226" && Ascii.eqb b "129" && Ascii.eqb c "159")
  || (Ascii.eqb a "227" && Ascii.eqb b "128" && Ascii.eqb c "128")
  || (Ascii.eqb a "239" && Ascii.eqb b "187" && Ascii.eqb c "191").

(** A text that is one such character and nothing else. *)
Definition isWhiteSpaceChar (s : string) : bool :=
  match s with
  | String a EmptyString => isWhiteSpace a
  | String a (String b EmptyString) => isWhiteSpace2 a b
  | String a (String b (String c EmptyString)) => isWhiteSpace3 a b c
  | _ => false
  end.

Fixpoint trimStart (s : string) : string :=
  match s with
  | String a s1 =>
      if isWhiteSpace a then trimStart s1
      else
        match s1 with
        | String b s2 =>
            if isWhiteSpace2 a b then trimStart s2
            else
              match s2 with
              | String c s3 =>
                  if isWhiteSpace3 a b c then trimStart s3 else s
              | EmptyString => s
              end
        | EmptyString => s
        end
  | EmptyString => EmptyString
  end.

Fixpoint trimEnd (s : string) : string :=
  match s with
  | String c s' =>
      let r := trimEnd s' in
      if isWhiteSpaceChar (String c r) then EmptyString else String c r
  | EmptyString => EmptyString
  end.

Definition trim (s : string) : string := trimEnd (trimStart s).

(** [s.includes(k)]: [k] occurs in [s] at some position; characters are
    compared as they are. *)
Fixpoint includes (s k : string) : bool :=
  if prefix k s then true
  else match s with
       | String _ s' => includes s' k
       | EmptyString => false
       end.

(** *** A host for closed examples

    Decimal integers in both directions.  It agrees with the language on
    integer literals and integer values, which is all the examples below
    feed it; a fraction is printed as a quotient. *)
Definition decimal (z : Z) : string := NilZero.string_of_int (Z.to_int z).

Definition decimal_NumberToString (n : number) : string :=
  match n with
  | NaN => "NaN"
  | Infinity false => "Infinity"
  | Infinity true => "-Infinity"
  | Fin q =>
      if (Z.pos (Qden q) =? 1)%Z then decimal (Qnum q)
      else decimal (Qnum q) ++ "/" ++ decimal (Z.pos (Qden q))
  end.

Definition decimal_ToNumber (s : string) : number :=
  match trim s with
  | EmptyString => int 0
  | String "+" d =>
      match NilEmpty.uint_of_string d with
      | Some (Decimal.Nil) | None => NaN
      | Some u => int (Z.of_uint u)
      end
  | String "-" d =>
      match NilEmpty.uint_of_string d with
      | Some (Decimal.Nil) | None => NaN
      | Some u => int (- Z.of_uint u)
      end
  | d =>
      match NilEmpty.uint_of_string d with
      | Some u => int (Z.of_uint u)
      | None => NaN
      end
  end.

Definition decimal_host : Host :=
  {| ToNumber := decimal_ToNumber; NumberToString := decimal_NumberToString |}.

End Js.

(** ** The rendered list *)

Module Dom.

(** One [<li>] of the list, as [showLogs] builds it: its class list and the
    text of its two paragraphs, the one carrying the attribute [logs-type]
    and the one carrying [logs-content]. *)
Record li : Type := {
  classList : list string;
  logs_type : string;
  logs_content : string
}.

Definition contains (c : string) (l : list string) : bool :=
  existsb (String.eqb c) l.

(** [classList.add(c)]: a token already present is not added again. *)
Definition add (c : string) (l : list string) : list string :=
  if contains c l then l else l ++ [c].

(** [classList.remove(c)]. *)
Definition remove (c : string) (l : list string) : list string :=
  List.filter (fun x => negb (String.eqb c x)) l.

Definition classList_add (c : string) (el : li) : li :=
  {| classList := add c (classList el);
     logs_type := logs_type el;
     logs_content := logs_content el |}.

Definition classList_remove (c : string) (el : li) : li :=
  {| classList := remove c (classList el);
     logs_type := logs_type el;
     logs_content := logs_content el |}.

(** A row is hidden when its class list holds ["hidden"]. *)
Definition hidden (el : li) : bool := contains "hidden" (classList el).

Definition visible (el : li) : bool := negb (hidden el).

End Dom.

(** ** class FilterLogs *)

Module FilterLogs.
Import Dom.

Record t : Type := { lastType : string }.

(** How a call ends: [filter] calls [this.setFilterDate], which the class
    does not define, so a call that reaches that line ends by throwing. *)
Inductive completion : Type :=
| Return
| Throw (error : string).

Definition constructor : t := {| lastType := "" |}.

(** The body of the loop of [setFilterType], for one row. *)
Definition setFilterType_body (this : t) (el : li) : li :=
  let el :=
    if negb (lastType this =? "misc") && negb (logs_type el =? lastType this)
    then classList_add "hidden" el else el in
  if (lastType this =? "misc")
     && negb (logs_type el =? "info")
     && negb (logs_type el =? "message")
  then classList_add "hidden" el else el.

Definition setFilterType (this : t) (logs : list li) : list li :=
  if lastType this =? "all" then logs
  else map (setFilterType_body this) logs.

Definition setFilterKeyword_body (keyword : string) (el : li) : li :=
  if negb (Js.includes (logs_content el) keyword)
  then classList_add "hidden" el else el.

(** [keyInp_value] is [this.keyInp.value] at the time of the call. *)
Definition setFilterKeyword (keyInp_value : string) (logs : list li)
  : list li :=
  let keyword := keyInp_value in
  if negb (Js.truthy (Js.Str keyword)) then logs
  else map (setFilterKeyword_body keyword) logs.

Definition filter (this : t) (keyInp_value : string) (logs : list li)
  : list li * completion :=
  if (List.length logs =? 0)%nat then (logs, Return)
  else
    let logs := map (classList_remove "hidden") logs in
    let logs := setFilterType this logs in
    let logs := setFilterKeyword keyInp_value logs in
    (logs, Throw "TypeError: this.setFilterDate is not a function").

(** The two handlers of [initHandler].  The click on a button of the
    ["types"] dropdown stores the button's value and filters inside
    [try ... catch]; the input event of the keyword field filters. *)
Definition type_click (this : t) (btnValue keyInp_value : string)
    (logs : list li) : t * list li * completion :=
  let this := {| lastType := btnValue |} in
  (this, fst (filter this keyInp_value logs), Return).

Definition keyword_input (this : t) (keyInp_value : string)
    (logs : list li) : t * list li * completion :=
  (this, fst (filter this keyInp_value logs),
   snd (filter this keyInp_value logs)).

(** What the type predicate and the keyword predicate keep. *)
Definition type_keeps (selected type : string) : bool :=
  if selected =? "all" then true
  else if selected =? "misc" then (type =? "info") || (type =? "message")
  else type =? selected.

Definition keyword_keeps (keyword content : string) : bool :=
  (keyword =? "") || Js.includes content keyword.

(** What one call does to one row of the list. *)
Definition type_row (this : t) (el : li) : li :=
  if lastType this =? "all" then el else setFilterType_body this el.

Definition keyword_row (keyword : string) (el : li) : li :=
  if negb (Js.truthy (Js.Str keyword)) then el
  else setFilterKeyword_body keyword el.

Definition filter_row (this : t) (keyword : string) (el : li) : li :=
  keyword_row keyword (type_row this (classList_remove "hidden" el)).

End FilterLogs.

(** ** class FetchLogs *)

Module FetchLogs.
Import Js Dom.

(** The fields of the object that the methods read or assign.
    [getSettings] assigns [formDate] (so spelled), a field the constructor
    does not create; [fromDate] keeps the constructor's value. *)
Record t : Type := {
  instanceName : string;
  fromDate : value;
  formDate : value;
  toDate : value;
  isLiveUpdate : bool;
  updateDelay : value;
  lastUpdate : value
}.

(** The form controls, as the page holds them when a method reads them. *)
Record controls : Type := {
  instance_textContent : string;
  fromDateInp_valueAsNumber : number;
  toDateInp_valueAsNumber : number;
  updateDelayInp_value : string;
  liveUpdateInp_checked : bool
}.

(** The functions handed to [setTimeout]. *)
Inductive callback : Type :=
| GoBottomList
| GetLogsSinceLastUpdate
| SubmitSettings.

Record timer : Type := { handler : callback; delay : value }.

Record LogRecord : Type := { type : string; content : string }.

(** The parsed body of a response, and the response. *)
Record body : Type := { last_update : number; logs : list LogRecord }.

Record response : Type := { status : Z; json : body }.

(** Everything a method can read or change. *)
Record world : Type := {
  this : t;
  inputs : controls;
  location_href : string;
  Date_now : Z;
  logListContainer : list li;
  timers : list timer;
  fetched : list string;
  console : list string
}.

(** *** State passing *)

Definition M (A : Type) : Type := world -> A * world.

Definition ret {A} (a : A) : M A := fun w => (a, w).

Definition bind {A B} (m : M A) (k : A -> M B) : M B :=
  fun w => let (a, w') := m w in k a w'.

Declare Scope js_scope.
Delimit Scope js_scope with js.
Notation "x <- m ;; k" := (bind m (fun x => k))
  (at level 61, m at next level, right associativity) : js_scope.
Notation "m ;; k" := (bind m (fun _ => k))
  (at level 61, right associativity) : js_scope.
Local Open Scope js_scope.

Definition exec {A} (m : M A) (w : world) : world := snd (m w).
Definition result {A} (m : M A) (w : world) : A := fst (m w).

Definition get_this : M t := fun w => (this w, w).
Definition get_inputs : M controls := fun w => (inputs w, w).
Definition get_href : M string := fun w => (location_href w, w).
Definition get_now : M Z := fun w => (Date_now w, w).

Definition set_this (f : t -> t) : M unit := fun w =>
  (tt, {| this := f (this w); inputs := inputs w;
          location_href := location_href w; Date_now := Date_now w;
          logListContainer := logListContainer w; timers := timers w;
          fetched := fetched w; console := console w |}).

Definition set_list (f : list li -> list li) : M unit := fun w =>
  (tt, {| this := this w; inputs := inputs w;
          location_href := location_href w; Date_now := Date_now w;
          logListContainer := f (logListContainer w); timers := timers w;
          fetched := fetched w; console := console w |}).

(** [setTimeout(handler, delay)]: [timers] lists the timers armed so far, in
    the order of the calls. *)
Definition setTimeout (h : callback) (d : value) : M unit := fun w =>
  (tt, {| this := this w; inputs := inputs w;
          location_href := location_href w; Date_now := Date_now w;
          logListContainer := logListContainer w;
          timers := timers w ++ [{| handler := h; delay := d |}];
          fetched := fetched w; console := console w |}).

(** [fetch(url)]: the request is recorded; the response the caller awaits
    is an argument of the calling method. *)
Definition fetch (url : string) : M unit := fun w =>
  (tt, {| this := this w; inputs := inputs w;
          location_href := location_href w; Date_now := Date_now w;
          logListContainer := logListContainer w; timers := timers w;
          fetched := fetched w ++ [url]; console := console w |}).

Definition console_log (s : string) : M unit := fun w =>
  (tt, {| this := this w; inputs := inputs w;
          location_href := location_href w; Date_now := Date_now w;
          logListContainer := logListContainer w; timers := timers w;
          fetched := fetched w; console := console w ++ [s] |}).

Fixpoint forEach {A} (l : list A) (f : A -> M unit) : M unit :=
  match l with
  | [] => ret tt
  | x :: l' => f x ;; forEach l' f
  end.

(** *** Assignments to the fields *)

Definition set_instanceName (v : string) (o : t) : t :=
  {| instanceName := v; fromDate := fromDate o; formDate := formDate o;
     toDate := toDate o; isLiveUpdate := isLiveUpdate o;
     updateDelay := updateDelay o; lastUpdate := lastUpdate o |}.

Definition set_formDate (v : value) (o : t) : t :=
  {| instanceName := instanceName o; fromDate := fromDate o; formDate := v;
     toDate := toDate o; isLiveUpdate := isLiveUpdate o;
     updateDelay := updateDelay o; lastUpdate := lastUpdate o |}.

Definition set_toDate (v : value) (o : t) : t :=
  {| instanceName := instanceName o; fromDate := fromDate o;
     formDate := formDate o; toDate := v; isLiveUpdate := isLiveUpdate o;
     updateDelay := updateDelay o; lastUpdate := lastUpdate o |}.

Definition set_isLiveUpdate (v : bool) (o : t) : t :=
  {| instanceName := instanceName o; fromDate := fromDate o;
     formDate := formDate o; toDate := toDate o; isLiveUpdate := v;
     updateDelay := updateDelay o; lastUpdate := lastUpdate o |}.

Definition set_updateDelay (v : value) (o : t) : t :=
  {| instanceName := instanceName o; fromDate := fromDate o;
     formDate := formDate o; toDate := toDate o;
     isLiveUpdate := isLiveUpdate o; updateDelay := v;
     lastUpdate := lastUpdate o |}.

Definition set_lastUpdate (v : value) (o : t) : t :=
  {| instanceName := instanceName o; fromDate := fromDate o;
     formDate := formDate o; toDate := toDate o;
     isLiveUpdate := isLiveUpdate o; updateDelay := updateDelay o;
     lastUpdate := v |}.

(** [Math.round(Date.now() / 1000 - 86400)], on an integer clock in
    milliseconds: rounding to the nearest integer, halves upwards. *)
Definition a_day_ago (now : Z) : number :=
  int ((now + 500) / 1000 - 86400)%Z.

(** *** The methods *)

Definition constructor (now : Z) : t :=
  {| instanceName := "";
     fromDate := Str "";
     formDate := undefined;
     toDate := Str "";
     isLiveUpdate := false;
     updateDelay := Num (int 2000);
     lastUpdate := Num (a_day_ago now) |}.

Section Methods.
Context `{Host}.

Definition getSettings : M bool :=
  c <- get_inputs ;;
  set_this (set_instanceName (instance_textContent c)) ;;
  o <- get_this ;;
  if negb (truthy (Str (instanceName o)))
     || (trim (instanceName o) =? "none")
  then ret false
  else
    now <- get_now ;;
    set_this (set_formDate
      (if truthy (Num (fromDateInp_valueAsNumber c))
       then Num (fromDateInp_valueAsNumber c)
       else Num (a_day_ago now))) ;;
    set_this (set_toDate
      (if truthy (Num (toDateInp_valueAsNumber c))
       then Num (toDateInp_valueAsNumber c)
       else Bool false)) ;;
    set_this (set_updateDelay
      (if truthy (Num (mul (ToNumber (updateDelayInp_value c)) (int 1000)))
       then Str (updateDelayInp_value c)
       else Num (int 2000))) ;;
    set_this (set_isLiveUpdate (liveUpdateInp_checked c)) ;;
    ret true.

(** Scrolling moves no field of [world]. *)
Definition goBottomList : M unit := ret tt.

(** The row [showLogs] builds for one record. *)
Definition createRow (log : LogRecord) : li :=
  {| classList :=
       ["grid"; "grid-cols-12"; "border-b"; "border-gray-300"; "py-2"];
     logs_type := type log;
     logs_content := content log |}.

Definition showLogs (res : body) : M value :=
  set_this (set_lastUpdate (Num (last_update res))) ;;
  forEach (logs res)
    (fun log => set_list (fun l => (l ++ [createRow log])%list)) ;;
  setTimeout GoBottomList (Num (int 100)) ;;
  o <- get_this ;;
  (if isLiveUpdate o && negb (truthy (toDate o))
   then setTimeout GetLogsSinceLastUpdate (updateDelay o)
   else ret tt) ;;
  ret undefined.

(** The argument of [fetch] in [getLogsFromToDate].  The operator [+]
    binds tighter than [? :], so the condition of the conditional is the
    whole concatenation and the template string is not part of either
    branch. *)
Definition fromToDate_url (href : string) (o : t) : string :=
  if truthy (Str (plus
       (href ++ "/" ++ instanceName o ++ "?from_date="
             ++ ToString (fromDate o))
       (toDate o)))
  then "?to_date=" ++ ToString (toDate o)
  else "".

Definition getLogsFromToDate (response : response) : M value :=
  o <- get_this ;;
  href <- get_href ;;
  fetch (fromToDate_url href o) ;;
  if (status response =? 200)%Z then
    let res := json response in
    showLogs res
  else
    console_log ("Error: " ++ ToString (Num (int (status response)))) ;;
    ret null.

Definition sinceLastUpdate_url (href : string) (o : t) : string :=
  (href ++ "/" ++ instanceName o)
  ++ (if truthy (lastUpdate o)
      then "?last_update=" ++ ToString (lastUpdate o)
      else "").

Definition getLogsSinceLastUpdate (response : response) : M value :=
  o <- get_this ;;
  href <- get_href ;;
  fetch (sinceLastUpdate_url href o) ;;
  if (status response =? 200)%Z then
    let res := json response in
    showLogs res
  else
    console_log ("Error: " ++ ToString (Num (int (status response)))) ;;
    ret null.

(** The function both branches of the click listener run. *)
Definition submitSettings (response : response) : M unit :=
  isSettings <- getSettings ;;
  if isSettings then getLogsFromToDate response ;; ret tt else ret tt.

(** The click listener that [init] puts on the submit button. *)
Definition init_click (response : response) : M unit :=
  set_list (fun _ => []) ;;
  o <- get_this ;;
  if isLiveUpdate o && negb (truthy (toDate o))
  then setTimeout SubmitSettings (updateDelay o)
  else submitSettings response.

(** A timer fires: its handler runs. *)
Definition run (h : callback) (response : response) : M unit :=
  match h with
  | GoBottomList => goBottomList
  | GetLogsSinceLastUpdate => getLogsSinceLastUpdate response ;; ret tt
  | SubmitSettings => submitSettings response
  end.

(** The number of milliseconds a timer waits: [setTimeout] converts its
    delay to a number. *)
Definition milliseconds (tm : timer) : number := ToNumberV (delay tm).
End Methods.

(** The timers one call of [showLogs] arms. *)
Definition armed (o : t) : list timer :=
  {| handler := GoBottomList; delay := Num (int 100) |}
  :: (if isLiveUpdate o && negb (truthy (toDate o))
      then [{| handler := GetLogsSinceLastUpdate; delay := updateDelay o |}]
      else []).

(** The timers that, once fired, send a request. *)
Definition fetches (h : callback) : bool :=
  match h with
  | GoBottomList => false
  | GetLogsSinceLastUpdate => true
  | SubmitSettings => true
  end.

Definition fetch_timers (l : list timer) : list timer :=
  List.filter (fun tm => fetches (handler tm)) l.

End FetchLogs.

(** ** Inputs for the closed examples *)

Module Samples.
Import Js Dom FetchLogs.

Definition sample_logs : list LogRecord :=
  [ {| type := "error"; content := "upstream timed out" |};
    {| type := "info"; content := "reload done" |};
    {| type := "message"; content := "Reload requested" |} ].

Definition sample_rows : list li := map createRow sample_logs.

(** The settings form: instance, end of the range, delay, live toggle. *)
Definition form (name : string) (to : number) (delay : string)
    (live : bool) : controls :=
  {| instance_textContent := name;
     fromDateInp_valueAsNumber := NaN;
     toDateInp_valueAsNumber := to;
     updateDelayInp_value := delay;
     liveUpdateInp_checked := live |}.

(** The page as the script finds it once loaded, at a clock of
    1700000000000 ms, before any click. *)
Definition loaded (c : controls) : world :=
  {| this := constructor 1700000000000;
     inputs := c;
     location_href := "http://ui.example/logs";
     Date_now := 1700000000000;
     logListContainer := [];
     timers := [];
     fetched := [];
     console := [] |}.

(** The same page with a live poll under way: cursor at [cursor], no end
    date. *)
Definition polling (c : controls) (cursor : Z) : world :=
  {| this := {| instanceName := instance_textContent c;
                fromDate := Str "";
                formDate := Num (a_day_ago 1700000000000);
                toDate := Bool false;
                isLiveUpdate := true;
                updateDelay := Str (updateDelayInp_value c);
                lastUpdate := Num (int cursor) |};
     inputs := c;
     location_href := "http://ui.example/logs";
     Date_now := 1700000000000;
     logListContainer := [];
     timers := [];
     fetched := [];
     console := [] |}.

Definition ok (cursor : Z) : response :=
  {| status := 200;
     json := {| last_update := int cursor; logs := sample_logs |} |}.

(** An answer that is not a success. *)
Definition unavailable : response :=
  {| status := 503;
     json := {| last_update := int 0; logs := [] |} |}.

End Samples.

(** ** The page over time *)

Module Session.
Import Js Dom FetchLogs.

(** What happens to the page between two runs of the script: the user
    changes the form, the clock moves on, the user clicks on submit, or a
    timer fires.  A click or a
    timer that sends a request comes with the response the request gets. *)
Inductive event : Type :=
| Edit (c : controls)
| Tick (now : Z)
| Click (response : response)
| Fire (h : callback) (response : response).

Definition edit (c : controls) : M unit := fun w =>
  (tt, {| this := this w; inputs := c;
          location_href := location_href w; Date_now := Date_now w;
          logListContainer := logListContainer w; timers := timers w;
          fetched := fetched w; console := console w |}).

Definition tick (now : Z) : M unit := fun w =>
  (tt, {| this := this w; inputs := inputs w;
          location_href := location_href w; Date_now := now;
          logListContainer := logListContainer w; timers := timers w;
          fetched := fetched w; console := console w |}).

Section Play.
Context `{Host}.

Definition handle (e : event) : M unit :=
  match e with
  | Edit c => edit c
  | Tick now => tick now
  | Click response => init_click response
  | Fire h response => run h response
  end.

Fixpoint play (es : list event) (w : world) : world :=
  match es with
  | [] => w
  | e :: es' => play es' (exec (handle e) w)
  end.

(** The delays the script hands to [setTimeout]. *)
Definition delay_ok (d : value) : Prop :=
  d = Num (int 100)
  \/ d = Num (int 2000)
  \/ exists v, d = Str v /\ number_truthy (ToNumber v) = true.

(** The shape the settings stay in. *)
Definition settled (o : t) : Prop :=
  fromDate o = Str ""
  /\ (toDate o = Str "" \/ toDate o = Bool false
      \/ exists n, toDate o = Num n /\ number_truthy n = true)
  /\ (updateDelay o = Num (int 2000)
      \/ exists v, updateDelay o = Str v
                   /\ number_truthy (ToNumber v) = true).

(** What holds of the page at every moment. *)
Definition steady (w : world) : Prop :=
  settled (this w)
  /\ Forall (fun tm => delay_ok (delay tm)) (timers w).
End Play.

(** The page when the script has just run. *)
Definition start (now : Z) (href : string) (c : controls) : world :=
  {| this := constructor now;
     inputs := c;
     location_href := href;
     Date_now := now;
     logListContainer := [];
     timers := [];
     fetched := [];
     console := [] |}.

End Session.

(** ** class LogsDropdown *)

Module LogsDropdown.
Import Dom.

(** The markup the class works on is a template outside these sources; the
    page is taken as the selectors of the class address it.  For each
    setting [s] (["instances"], ["types"]) there is one select button
    [[logs-setting-select=s]] holding the text element
    [[logs-setting-select-text=s]] and the chevron
    [svg[logs-setting-select=s]], and one menu
    [[logs-setting-select-dropdown=s]] holding the buttons
    [[logs-setting-select-dropdown-btn=s]]; the two date inputs sit in a
    [div] each. *)
Record button : Type := {
  value : option string;
  _type : option string;
  btn_classList : list string
}.

Record select : Type := {
  name : string;
  text : string;
  dropdown : list string;
  chevron : list string;
  buttons : list button
}.

Record page : Type := {
  selects : list select;
  from_date_div : list string;
  to_date_div : list string;
  console : list Js.value
}.

(** [classList.toggle(c)], and [add] and [remove] with several tokens. *)
Definition toggle (c : string) (l : list string) : list string :=
  if contains c l then remove c l else l ++ [c].

Definition add_all (cs : list string) (l : list string) : list string :=
  fold_left (fun acc c => add c acc) cs l.

Definition remove_all (cs : list string) (l : list string) : list string :=
  fold_left (fun acc c => remove c acc) cs l.

(** [document.querySelector] for the elements of one setting: the first
    in document order. *)
Fixpoint find (s : string) (l : list select) : option select :=
  match l with
  | [] => None
  | x :: l' => if name x =? s then Some x else find s l'
  end.

Fixpoint update (s : string) (f : select -> select) (l : list select)
  : list select :=
  match l with
  | [] => []
  | x :: l' => if name x =? s then f x :: l' else x :: update s f l'
  end.

Fixpoint update_nth {A} (i : nat) (f : A -> A) (l : list A) : list A :=
  match l, i with
  | [], _ => []
  | x :: l', O => f x :: l'
  | x :: l', S i' => x :: update_nth i' f l'
  end.

(** *** State passing, with exceptions

    [None] is a thrown [TypeError]: a property read on the [null] that
    [querySelector] or [closest] answered. *)
Definition M (A : Type) : Type := page -> option A * page.

Definition ret {A} (a : A) : M A := fun p => (Some a, p).

Definition throw {A} : M A := fun p => (None, p).

Definition bind {A B} (m : M A) (k : A -> M B) : M B :=
  fun p => match m p with
           | (Some a, p') => k a p'
           | (None, p') => (None, p')
           end.

Declare Scope dom_scope.
Delimit Scope dom_scope with dom.
Notation "x <- m ;; k" := (bind m (fun x => k))
  (at level 61, m at next level, right associativity) : dom_scope.
Notation "m ;; k" := (bind m (fun _ => k))
  (at level 61, right associativity) : dom_scope.
Local Open Scope dom_scope.

(** [try { m } catch (err) {}]. *)
Definition try_catch (m : M unit) : M unit :=
  fun p => (Some tt, snd (m p)).

Definition exec {A} (m : M A) (p : page) : page := snd (m p).
Definition result {A} (m : M A) (p : page) : option A := fst (m p).

Definition querySelector (s : string) : M select := fun p =>
  (find s (selects p), p).

Definition set_select (s : string) (f : select -> select) : M unit :=
  fun p =>
    (Some tt, {| selects := update s f (selects p);
                 from_date_div := from_date_div p;
                 to_date_div := to_date_div p;
                 console := console p |}).

Definition set_text (v : string) (x : select) : select :=
  {| name := name x; text := v; dropdown := dropdown x;
     chevron := chevron x; buttons := buttons x |}.

Definition set_dropdown (f : list string -> list string) (x : select)
  : select :=
  {| name := name x; text := text x; dropdown := f (dropdown x);
     chevron := chevron x; buttons := buttons x |}.

Definition set_chevron (f : list string -> list string) (x : select)
  : select :=
  {| name := name x; text := text x; dropdown := dropdown x;
     chevron := f (chevron x); buttons := buttons x |}.

Definition set_buttons (f : list button -> list button) (x : select)
  : select :=
  {| name := name x; text := text x; dropdown := dropdown x;
     chevron := chevron x; buttons := f (buttons x) |}.

Definition set_btn_classList (f : list string -> list string) (b : button)
  : button :=
  {| value := value b; _type := _type b;
     btn_classList := f (btn_classList b) |}.

(** The two date inputs, by their selectors. *)
Inductive input : Type :=
| from_date
| to_date.

Definition set_div (i : input) (f : list string -> list string) : M unit :=
  fun p =>
    (Some tt,
     match i with
     | from_date =>
         {| selects := selects p; from_date_div := f (from_date_div p);
            to_date_div := to_date_div p; console := console p |}
     | to_date =>
         {| selects := selects p; from_date_div := from_date_div p;
            to_date_div := f (to_date_div p); console := console p |}
     end).

Definition console_log (v : Js.value) : M unit := fun p =>
  (Some tt, {| selects := selects p; from_date_div := from_date_div p;
               to_date_div := to_date_div p;
               console := console p ++ [v] |}).

(** *** The methods *)

(** [value] is what [getAttribute("value")] answered; [null] is equal to no
    text. *)
Definition isSameValue (btnSetting : string) (value : option string)
  : M bool :=
  selectCustom <- querySelector btnSetting ;;
  let currVal := text selectCustom in
  ret (match value with
       | Some v => if currVal =? v then true else false
       | None => false
       end).

(** Assigning [null] to [textContent] empties the text. *)
Definition setSelectNewValue (btnSetting : string) (value : option string)
  : M unit :=
  _ <- querySelector btnSetting ;;
  set_select btnSetting
    (set_text (match value with Some v => v | None => "" end)).

Definition hideDropdown (btnSetting : string) : M unit :=
  _ <- querySelector btnSetting ;;
  set_select btnSetting (set_dropdown (add "hidden")) ;;
  set_select btnSetting (set_dropdown (remove "flex")) ;;
  _ <- querySelector btnSetting ;;
  set_select btnSetting (set_chevron (remove "rotate-180")).

(** [selectedBtn] is the position of the clicked button in its menu. *)
Definition changeDropBtnStyle (btnSetting : string) (selectedBtn : nat)
  : M unit :=
  _ <- querySelector btnSetting ;;
  set_select btnSetting
    (set_buttons
       (map (fun btn =>
               set_btn_classList
                 (add_all ["bg-white"; "dark:bg-slate-700"; "text-gray-700"])
                 (set_btn_classList
                    (remove_all ["dark:bg-primary"; "bg-primary";
                                 "bg-primary"; "text-gray-300";
                                 "text-gray-300"]) btn)))) ;;
  set_select btnSetting
    (set_buttons
       (update_nth selectedBtn
          (set_btn_classList
             (remove_all ["bg-white"; "dark:bg-slate-700";
                          "text-gray-700"])))) ;;
  set_select btnSetting
    (set_buttons
       (update_nth selectedBtn
          (set_btn_classList
             (add_all ["dark:bg-primary"; "bg-primary";
                       "text-gray-300"])))).

Definition toggleSelectBtn (attribut : string) : M unit :=
  _ <- querySelector attribut ;;
  _ <- querySelector attribut ;;
  set_select attribut (set_dropdown (toggle "hidden")) ;;
  set_select attribut (set_dropdown (toggle "flex")) ;;
  set_select attribut (set_chevron (toggle "rotate-180")).

Definition showInp (selector : input) : M unit :=
  set_div selector (add "flex") ;;
  set_div selector (remove "hidden").

Definition hideInp (selector : input) : M unit :=
  set_div selector (add "hidden") ;;
  set_div selector (remove "flex").

Definition is_local (type : option string) : bool :=
  match type with
  | Some s => s =? "local"
  | None => false
  end.

Definition hideFilterOnLocal (type : option string) : M unit :=
  console_log (match type with Some s => Js.Str s | None => Js.null end) ;;
  (if is_local type
   then hideInp from_date ;; hideInp to_date
   else ret tt) ;;
  (if negb (is_local type)
   then showInp from_date ;; showInp to_date
   else ret tt).

(** *** The click listener of [initDropdown]

    What [e.target.closest("button")] answers: nothing; a select button,
    with its setting and whether it is disabled; the button at some
    position of the menu of a setting; a button with neither attribute. *)
Inductive target : Type :=
| NoButton
| SelectButton (attribut : string) (disabled : bool)
| DropdownButton (btnSetting : string) (position : nat)
| OtherButton.

(** The clicked menu button, read from the page. *)
Definition clicked (btnSetting : string) (position : nat) : M button :=
  fun p =>
    (match find btnSetting (selects p) with
     | Some x => nth_error (buttons x) position
     | None => None
     end, p).

Definition click (e : target) : M unit :=
  try_catch
    (match e with
     | NoButton => throw
     | SelectButton attribut disabled =>
         if negb disabled then toggleSelectBtn attribut else ret tt
     | DropdownButton _ _ => ret tt
     | OtherButton => ret tt
     end) ;;
  try_catch
    (match e with
     | NoButton => throw
     | SelectButton _ _ => ret tt
     | DropdownButton btnSetting position =>
         btn <- clicked btnSetting position ;;
         let btnValue := value btn in
         isSameVal <- isSameValue btnSetting btnValue ;;
         if isSameVal then hideDropdown btnSetting
         else
           setSelectNewValue btnSetting btnValue ;;
           hideDropdown btnSetting ;;
           changeDropBtnStyle btnSetting position ;;
           if btnSetting =? "instances"
           then hideFilterOnLocal (_type btn)
           else ret tt
     | OtherButton => ret tt
     end).

(** What [changeDropBtnStyle] makes of the class list of a button: of
    every button of the menu first, of the clicked one after that. *)
Definition reset_style (l : list string) : list string :=
  add_all ["bg-white"; "dark:bg-slate-700"; "text-gray-700"]
    (remove_all ["dark:bg-primary"; "bg-primary"; "bg-primary";
                 "text-gray-300"; "text-gray-300"] l).

Definition select_style (l : list string) : list string :=
  add_all ["dark:bg-primary"; "bg-primary"; "text-gray-300"]
    (remove_all ["bg-white"; "dark:bg-slate-700"; "text-gray-700"] l).

(** What [hideDropdown] makes of the elements of a setting. *)
Definition close (x : select) : select :=
  set_chevron (remove "rotate-180")
    (set_dropdown (remove "flex") (set_dropdown (add "hidden") x)).

(** What [changeDropBtnStyle] makes of the buttons of a menu, the clicked
    one being at position [i]. *)
Definition restyle (i : nat) (x : select) : select :=
  set_buttons
    (fun bs =>
       update_nth i (set_btn_classList select_style)
         (map (set_btn_classList reset_style) bs)) x.

(** What [hideFilterOnLocal] makes of the class list of the [div] of a
    date input. *)
Definition date_style (type : option string) (l : list string)
  : list string :=
  if is_local type then remove "flex" (add "hidden" l)
  else remove "hidden" (add "flex" l).

(** A change of an element that leaves its setting alone. *)
Definition keeps_name (f : select -> select) : Prop :=
  forall x, name (f x) = name x.

(** The page with the first element of a setting changed. *)
Definition with_select (s : string) (f : select -> select) (p : page)
  : page :=
  {| selects := update s f (selects p);
     from_date_div := from_date_div p;
     to_date_div := to_date_div p;
     console := console p |}.

(** The three tokens that make a menu open or closed. *)
Definition closed (x : select) : Prop :=
  contains "hidden" (dropdown x) = true
  /\ contains "flex" (dropdown x) = false
  /\ contains "rotate-180" (chevron x) = false.

Definition opened (x : select) : Prop :=
  contains "hidden" (dropdown x) = false
  /\ contains "flex" (dropdown x) = true
  /\ contains "rotate-180" (chevron x) = true.

(** How a button of a menu looks. *)
Definition highlighted (b : button) : Prop :=
  Forall (fun c => contains c (btn_classList b) = true)
    ["dark:bg-primary"; "bg-primary"; "text-gray-300"]
  /\ Forall (fun c => contains c (btn_classList b) = false)
       ["bg-white"; "dark:bg-slate-700"; "text-gray-700"].

Definition plain (b : button) : Prop :=
  Forall (fun c => contains c (btn_classList b) = true)
    ["bg-white"; "dark:bg-slate-700"; "text-gray-700"]
  /\ Forall (fun c => contains c (btn_classList b) = false)
       ["dark:bg-primary"; "bg-primary"; "text-gray-300"].

End LogsDropdown.

(** A page for the closed examples: the instance menu open on its second
    entry, the type menu closed. *)
Module DropdownSamples.
Import LogsDropdown.

Definition entry (v t : string) (cls : list string) : button :=
  {| value := Some v; _type := Some t; btn_classList := cls |}.

Definition instances : select :=
  {| name := "instances";
     text := "bw1";
     dropdown := ["absolute"; "flex"];
     chevron := ["h-4"; "rotate-180"];
     buttons :=
       [ entry "local" "local" ["border"; "bg-white"; "text-gray-700"];
         entry "bw1" "container" ["border"; "bg-primary"; "text-gray-300"];
         entry "bw2" "container" ["border"; "bg-white"; "text-gray-700"] ] |}.

Definition types : select :=
  {| name := "types";
     text := "all";
     dropdown := ["absolute"; "hidden"];
     chevron := ["h-4"];
     buttons :=
       [ entry "all" "" ["border"; "bg-primary"; "text-gray-300"];
         entry "error" "" ["border"; "bg-white"; "text-gray-700"] ] |}.

Definition sample_page : page :=
  {| selects := [instances; types];
     from_date_div := ["relative"; "flex"];
     to_date_div := ["relative"; "flex"];
     console := [] |}.

End DropdownSamples.

(** * Properties *)

(** ** Strings *)

Section StringFacts.
Import Js.

Lemma prefix_app (k s : string) :
  prefix k s = true <-> exists b, s = k ++ b.
Proof.
  revert s; induction k as [|c k IH]; intros s.
  - destruct s; simpl; split; eauto.
  - destruct s as [|d s]; simpl.
    + split; [discriminate | intros [b Hb]; discriminate].
    + destruct (ascii_dec c d) as [->|Hcd].
      * rewrite IH. split; intros [b Hb]; exists b; congruence.
      * split; [discriminate | intros [b Hb]; congruence].
Qed.

Lemma includes_here (s k : string) :
  prefix k s = true -> includes s k = true.
Proof. intros E. destruct s; cbn [includes]; now rewrite E. Qed.

(** [includes] is the search for an occurrence: the needle, byte for
    byte, between some prefix and some suffix. *)
Lemma includes_spec (s k : string) :
  includes s k = true <-> exists a b, s = a ++ k ++ b.
Proof.
  split.
  - induction s as [|c s IH]; cbn [includes];
      destruct (prefix k _) eqn:E; try discriminate.
    + intros _. apply prefix_app in E as [b Hb]. now exists "", b.
    + intros _. apply prefix_app in E as [b Hb]. now exists "", b.
    + intros Hs. destruct (IH Hs) as (a & b & ->).
      now exists (String c a), b.
  - intros (a & b & ->). induction a as [|d a IH].
    + apply includes_here, prefix_app. now exists b.
    + change (String d a ++ k ++ b) with (String d (a ++ k ++ b)).
      cbn [includes].
      destruct (prefix k (String d (a ++ k ++ b)));
        [reflexivity | exact IH].
Qed.

Lemma includes_empty (s : string) : includes s "" = true.
Proof. apply includes_spec. exists "", s. reflexivity. Qed.
End StringFacts.

(** ** Class lists *)

Section ClassListFacts.
Import Dom.

Lemma contains_app (c : string) (l1 l2 : list string) :
  contains c (l1 ++ l2) = contains c l1 || contains c l2.
Proof. unfold contains. apply existsb_app. Qed.

Lemma contains_add (c : string) (l : list string) :
  contains c (add c l) = true.
Proof.
  unfold add. destruct (contains c l) eqn:E; [exact E|].
  rewrite contains_app, E. simpl. now rewrite String.eqb_refl.
Qed.

Lemma contains_remove (c : string) (l : list string) :
  contains c (remove c l) = false.
Proof.
  unfold contains, remove. induction l as [|x l IH]; simpl; [reflexivity|].
  destruct (String.eqb c x) eqn:E; simpl; [exact IH|].
  now rewrite E, IH.
Qed.

Lemma visible_add (el : li) : visible (classList_add "hidden" el) = false.
Proof.
  unfold visible, hidden, classList_add. cbn [classList].
  now rewrite contains_add.
Qed.

Lemma visible_remove (el : li) :
  visible (classList_remove "hidden" el) = true.
Proof.
  unfold visible, hidden, classList_remove. cbn [classList].
  now rewrite contains_remove.
Qed.
End ClassListFacts.

(** ** FilterLogs, row by row *)

Section FilterFacts.
Import Dom FilterLogs.

Lemma setFilterType_rows (this : t) (logs : list li) :
  setFilterType this logs = map (type_row this) logs.
Proof.
  unfold setFilterType, type_row.
  destruct (lastType this =? "all"); [now rewrite map_id | reflexivity].
Qed.

Lemma setFilterKeyword_rows (keyword : string) (logs : list li) :
  setFilterKeyword keyword logs = map (keyword_row keyword) logs.
Proof.
  unfold setFilterKeyword, keyword_row.
  destruct (negb _); [now rewrite map_id | reflexivity].
Qed.

Lemma filter_rows (this : t) (keyword : string) (logs : list li) :
  fst (filter this keyword logs) = map (filter_row this keyword) logs.
Proof.
  destruct logs as [|el logs]; [reflexivity|].
  unfold filter. cbn [List.length Nat.eqb fst].
  now rewrite setFilterKeyword_rows, setFilterType_rows, !map_map.
Qed.

Lemma type_row_visible (this : t) (el : li) :
  visible (type_row this el)
  = visible el && type_keeps (lastType this) (logs_type el).
Proof.
  unfold type_row, setFilterType_body, type_keeps.
  destruct (lastType this =? "all"); [now rewrite andb_true_r|].
  destruct (lastType this =? "misc"); cbn [negb andb].
  - destruct (logs_type el =? "info"), (logs_type el =? "message");
      cbn [negb andb orb];
      rewrite ?visible_add, ?andb_true_r, ?andb_false_r; reflexivity.
  - destruct (logs_type el =? lastType this); cbn [negb andb];
      rewrite ?visible_add, ?andb_true_r, ?andb_false_r; reflexivity.
Qed.

Lemma type_row_texts (this : t) (el : li) :
  logs_type (type_row this el) = logs_type el
  /\ logs_content (type_row this el) = logs_content el.
Proof.
  unfold type_row, setFilterType_body.
  repeat match goal with |- context [if ?b then _ else _] => destruct b end;
    split; reflexivity.
Qed.

Lemma keyword_row_visible (keyword : string) (el : li) :
  visible (keyword_row keyword el)
  = visible el && keyword_keeps keyword (logs_content el).
Proof.
  unfold keyword_row, setFilterKeyword_body, keyword_keeps.
  cbn [Js.truthy]. destruct (keyword =? ""); cbn [negb orb].
  - now rewrite andb_true_r.
  - destruct (Js.includes (logs_content el) keyword); cbn [negb].
    + now rewrite andb_true_r.
    + now rewrite visible_add, andb_false_r.
Qed.

Lemma keyword_row_texts (keyword : string) (el : li) :
  logs_type (keyword_row keyword el) = logs_type el
  /\ logs_content (keyword_row keyword el) = logs_content el.
Proof.
  unfold keyword_row, setFilterKeyword_body.
  repeat match goal with |- context [if ?b then _ else _] => destruct b end;
    split; reflexivity.
Qed.

Lemma filter_row_texts (this : t) (keyword : string) (el : li) :
  logs_type (filter_row this keyword el) = logs_type el
  /\ logs_content (filter_row this keyword el) = logs_content el.
Proof.
  unfold filter_row.
  destruct (keyword_row_texts keyword
              (type_row this (classList_remove "hidden" el))) as [-> ->].
  destruct (type_row_texts this (classList_remove "hidden" el)) as [-> ->].
  now split.
Qed.

(** After [filter], a row is visible exactly when both predicates keep
    it, whatever its class list was before. *)
Lemma filter_row_visible (this : t) (keyword : string) (el : li) :
  visible (filter_row this keyword el)
  = type_keeps (lastType this) (logs_type el)
    && keyword_keeps keyword (logs_content el).
Proof.
  unfold filter_row.
  rewrite keyword_row_visible, type_row_visible, visible_remove.
  destruct (type_row_texts this (classList_remove "hidden" el)) as [_ ->].
  reflexivity.
Qed.

Lemma filter_visible (this : t) (keyword : string) (logs : list li) :
  map visible (fst (filter this keyword logs))
  = map (fun el => type_keeps (lastType this) (logs_type el)
                   && keyword_keeps keyword (logs_content el)) logs.
Proof.
  rewrite filter_rows, map_map. apply map_ext. intros el.
  apply filter_row_visible.
Qed.
End FilterFacts.

(** ** FilterLogs: the claims *)

Section FilterClaims.
Import Dom FilterLogs Samples.

(** C2, as stated, fails: with the type ["all"] selected and the keyword
    ["reload"] typed, [filter] hides the rows whose content does not hold
    the keyword (here the first and, for its capital letter, the third). *)
Lemma all_type_keyword_still_hides :
  map visible (fst (filter {| lastType := "all" |} "reload" sample_rows))
  = [false; true; false].
Proof. reflexivity. Qed.

(** C2, amended: with the type ["all"] selected the type predicate hides
    nothing, and after [filter] a row is visible exactly when the keyword is
    empty or occurs in its content; with an empty keyword every row is
    visible. *)
Theorem all_type_leaves_keyword_predicate (keyword : string)
    (logs : list li) :
  setFilterType {| lastType := "all" |} logs = logs
  /\ map visible (fst (filter {| lastType := "all" |} keyword logs))
     = map (fun el => (keyword =? "")
                      || Js.includes (logs_content el) keyword) logs
  /\ map visible (fst (filter {| lastType := "all" |} "" logs))
     = map (fun _ => true) logs.
Proof.
  split; [reflexivity|]. split.
  - rewrite filter_visible. apply map_ext. intros el. reflexivity.
  - rewrite filter_visible. apply map_ext. intros el. reflexivity.
Qed.

(** C6: the type predicate.  With ["all"] selected [setFilterType] changes
    nothing; with ["misc"] a row stays visible exactly when it was visible
    and its type is ["info"] or ["message"]; with any other selection
    exactly when it was visible and its type is the selected one. *)
Theorem type_predicate (this : t) (logs : list li) :
  (lastType this = "all" -> setFilterType this logs = logs)
  /\ (lastType this = "misc" ->
      map visible (setFilterType this logs)
      = map (fun el => visible el
                       && ((logs_type el =? "info")
                           || (logs_type el =? "message"))) logs)
  /\ (lastType this <> "all" -> lastType this <> "misc" ->
      map visible (setFilterType this logs)
      = map (fun el => visible el && (logs_type el =? lastType this)) logs).
Proof.
  repeat split.
  - intros Hall. unfold setFilterType. now rewrite Hall.
  - intros Hm. rewrite setFilterType_rows, map_map. apply map_ext.
    intros el. rewrite type_row_visible. unfold type_keeps.
    now rewrite Hm.
  - intros Hall Hm. rewrite setFilterType_rows, map_map. apply map_ext.
    intros el. rewrite type_row_visible. unfold type_keeps.
    now rewrite (proj2 (String.eqb_neq _ _) Hall),
                (proj2 (String.eqb_neq _ _) Hm).
Qed.

Lemma type_predicate_sample :
  setFilterType {| lastType := "all" |} sample_rows = sample_rows
  /\ map visible (setFilterType {| lastType := "misc" |} sample_rows)
     = [false; true; true]
  /\ map visible (setFilterType {| lastType := "error" |} sample_rows)
     = [true; false; false].
Proof.
  split; [|split].
  - exact (proj1 (type_predicate {| lastType := "all" |} sample_rows)
             eq_refl).
  - exact (proj1 (proj2 (type_predicate {| lastType := "misc" |}
                           sample_rows)) eq_refl).
  - refine (proj2 (proj2 (type_predicate {| lastType := "error" |}
                            sample_rows)) _ _); discriminate.
Defined.

(** C7: the keyword predicate.  [includes] is the search for the keyword
    as a substring, byte for byte; a non-empty keyword hides exactly the
    rows whose content does not include it; an empty keyword changes
    nothing.  After [filter] a row is visible exactly when both predicates
    keep it, so filtering again with the keyword cleared shows every row
    that the type predicate keeps, those hidden by the keyword alone
    included. *)
Theorem keyword_predicate (this : t) (keyword : string) (logs : list li) :
  (forall s k, Js.includes s k = true <-> exists a b, s = a ++ k ++ b)
  /\ (keyword <> "" ->
      map visible (setFilterKeyword keyword logs)
      = map (fun el => visible el
                       && Js.includes (logs_content el) keyword) logs)
  /\ setFilterKeyword "" logs = logs
  /\ map visible (fst (filter this keyword logs))
     = map (fun el => type_keeps (lastType this) (logs_type el)
                      && ((keyword =? "")
                          || Js.includes (logs_content el) keyword)) logs
  /\ map visible (fst (filter this "" (fst (filter this keyword logs))))
     = map (fun el => type_keeps (lastType this) (logs_type el)) logs.
Proof.
  split; [exact includes_spec|]. split; [|split; [reflexivity|split]].
  - intros Hk. rewrite setFilterKeyword_rows, map_map. apply map_ext.
    intros el. rewrite keyword_row_visible. unfold keyword_keeps.
    now rewrite (proj2 (String.eqb_neq _ _) Hk).
  - apply filter_visible.
  - rewrite filter_visible, filter_rows, map_map. apply map_ext.
    intros el. destruct (filter_row_texts this keyword el) as [-> _].
    unfold keyword_keeps. cbn [String.eqb orb]. apply andb_true_r.
Qed.

Lemma keyword_predicate_sample :
  map visible (setFilterKeyword "reload" sample_rows) = [false; true; false]
  /\ map visible
       (fst (filter {| lastType := "misc" |} ""
          (fst (filter {| lastType := "misc" |} "reload" sample_rows))))
     = [false; true; true].
Proof.
  destruct (keyword_predicate {| lastType := "misc" |} "reload" sample_rows)
    as (_ & Hk & _ & _ & Hagain).
  split.
  - refine (Hk _). discriminate.
  - exact Hagain.
Defined.

(** C9: a new [FilterLogs] has [lastType] equal to the empty string, and
    while it has, [filter] (which the keyword handler runs) leaves a row
    visible only if its type text is empty: every row with a non-empty type
    text is hidden, whatever the keyword. *)
Theorem initial_type_hides_typed_rows (keyword : string) (logs : list li) :
  lastType constructor = ""
  /\ map visible (setFilterType constructor logs)
     = map (fun el => visible el && (logs_type el =? "")) logs
  /\ map visible (snd (fst (keyword_input constructor keyword logs)))
     = map (fun el => (logs_type el =? "")
                      && ((keyword =? "")
                          || Js.includes (logs_content el) keyword)) logs.
Proof.
  split; [reflexivity|]. split.
  - rewrite setFilterType_rows, map_map. apply map_ext. intros el.
    now rewrite type_row_visible.
  - unfold keyword_input. cbn [fst snd]. rewrite filter_visible.
    apply map_ext. intros el. reflexivity.
Qed.

End FilterClaims.

(** ** FetchLogs: what each method does to the world *)

(** Unfolds the methods and the state passing down to functions on
    [world]. *)
Ltac step :=
  unfold FetchLogs.init_click, FetchLogs.run, FetchLogs.submitSettings,
    FetchLogs.getLogsFromToDate, FetchLogs.getLogsSinceLastUpdate,
    FetchLogs.getSettings, FetchLogs.goBottomList, FetchLogs.bind,
    FetchLogs.ret, FetchLogs.get_this, FetchLogs.get_inputs,
    FetchLogs.get_href, FetchLogs.get_now, FetchLogs.set_this,
    FetchLogs.set_list, FetchLogs.setTimeout, FetchLogs.fetch,
    FetchLogs.console_log, FetchLogs.exec, FetchLogs.result.

Section FetchFacts.
Import Js Dom FetchLogs.
Context `{Host}.

Lemma forEach_createRow (l : list LogRecord) (w : world) :
  forEach l (fun log => set_list (fun r => (r ++ [createRow log])%list)) w
  = set_list (fun r => (r ++ map createRow l)%list) w.
Proof.
  revert w. induction l as [|log l IH]; intros w.
  - destruct w. unfold set_list, ret. cbn. now rewrite app_nil_r.
  - cbn [forEach map]. unfold bind at 1. cbn. rewrite IH.
    unfold set_list. cbn. now rewrite <- app_assoc.
Qed.

Lemma showLogs_run (res : body) (w : world) :
  showLogs res w
  = (undefined,
     {| this := set_lastUpdate (Num (last_update res)) (this w);
        inputs := inputs w;
        location_href := location_href w;
        Date_now := Date_now w;
        logListContainer :=
          (logListContainer w ++ map createRow (logs res))%list;
        timers := (timers w ++ armed (this w))%list;
        fetched := fetched w;
        console := console w |}).
Proof.
  unfold showLogs, armed. unfold bind at 1. cbn.
  unfold bind at 1. rewrite forEach_createRow. step. cbn.
  destruct (isLiveUpdate (this w) && negb (truthy (toDate (this w))));
    cbn; now rewrite <- ?app_assoc.
Qed.
End FetchFacts.

Section FetchCycles.
Import Js Dom FetchLogs.
Context `{Host}.

Lemma nonempty_path (a b c : string) :
  truthy (Str ((a ++ "/" ++ b) ++ c)) = true.
Proof. destruct a; reflexivity. Qed.

(** The condition of the conditional in [getLogsFromToDate] is a string
    that holds at least the ["/"] of the template: it is always truthy, and
    the argument of [fetch] is the first branch alone. *)
Lemma fromToDate_url_eq (href : string) (o : t) :
  fromToDate_url href o = "?to_date=" ++ ToString (toDate o).
Proof.
  unfold fromToDate_url, plus.
  now rewrite (nonempty_path href
                 (instanceName o ++ "?from_date=" ++ ToString (fromDate o))).
Qed.

Lemma fetch_timers_app (l1 l2 : list timer) :
  fetch_timers (l1 ++ l2) = (fetch_timers l1 ++ fetch_timers l2)%list.
Proof. apply filter_app. Qed.

Lemma fetch_timers_armed (o : t) :
  fetch_timers (armed o)
  = if isLiveUpdate o && negb (truthy (toDate o))
    then [{| handler := GetLogsSinceLastUpdate; delay := updateDelay o |}]
    else [].
Proof. unfold armed. now destruct (isLiveUpdate o && _). Qed.

(** One successful range cycle and one successful poll cycle. *)
Lemma range_cycle_run (response : response) (w : world) :
  status response = 200%Z ->
  exec (getLogsFromToDate response) w
  = {| this := set_lastUpdate (Num (last_update (json response))) (this w);
       inputs := inputs w;
       location_href := location_href w;
       Date_now := Date_now w;
       logListContainer :=
         (logListContainer w ++ map createRow (logs (json response)))%list;
       timers := (timers w ++ armed (this w))%list;
       fetched :=
         (fetched w ++ [fromToDate_url (location_href w) (this w)])%list;
       console := console w |}.
Proof.
  intros Hs. step. cbn -[showLogs]. rewrite Hs. cbn -[showLogs].
  now rewrite showLogs_run.
Qed.

Lemma poll_cycle_run (response : response) (w : world) :
  status response = 200%Z ->
  exec (getLogsSinceLastUpdate response) w
  = {| this := set_lastUpdate (Num (last_update (json response))) (this w);
       inputs := inputs w;
       location_href := location_href w;
       Date_now := Date_now w;
       logListContainer :=
         (logListContainer w ++ map createRow (logs (json response)))%list;
       timers := (timers w ++ armed (this w))%list;
       fetched :=
         (fetched w ++ [sinceLastUpdate_url (location_href w) (this w)])%list;
       console := console w |}.
Proof.
  intros Hs. step. cbn -[showLogs]. rewrite Hs. cbn -[showLogs].
  now rewrite showLogs_run.
Qed.

(** A poll sends exactly one request, whatever the answer. *)
Lemma poll_fetched (response : response) (w : world) :
  fetched (exec (getLogsSinceLastUpdate response) w)
  = (fetched w ++ [sinceLastUpdate_url (location_href w) (this w)])%list.
Proof.
  step. cbn -[showLogs]. destruct (status response =? 200)%Z;
    [now rewrite showLogs_run | reflexivity].
Qed.

(** [getSettings] when the instance is accepted. *)
Lemma getSettings_accepts (w : world) :
  result getSettings w = true ->
  exec getSettings w
  = {| this :=
         {| instanceName := instance_textContent (inputs w);
            fromDate := fromDate (this w);
            formDate :=
              if truthy (Num (fromDateInp_valueAsNumber (inputs w)))
              then Num (fromDateInp_valueAsNumber (inputs w))
              else Num (a_day_ago (Date_now w));
            toDate :=
              if truthy (Num (toDateInp_valueAsNumber (inputs w)))
              then Num (toDateInp_valueAsNumber (inputs w))
              else Bool false;
            isLiveUpdate := liveUpdateInp_checked (inputs w);
            updateDelay :=
              if truthy (Num (mul (ToNumber (updateDelayInp_value (inputs w)))
                                (int 1000)))
              then Str (updateDelayInp_value (inputs w))
              else Num (int 2000);
            lastUpdate := lastUpdate (this w) |};
       inputs := inputs w;
       location_href := location_href w;
       Date_now := Date_now w;
       logListContainer := logListContainer w;
       timers := timers w;
       fetched := fetched w;
       console := console w |}.
Proof.
  step. cbn.
  destruct (negb (negb _) || _);
    cbn; [intros E; discriminate E | intros _; reflexivity].
Qed.

(** [getSettings] when the instance is empty or the placeholder. *)
Lemma getSettings_rejects (w : world) :
  instance_textContent (inputs w) = ""
  \/ instance_textContent (inputs w) = "none" ->
  result getSettings w = false
  /\ fetched (exec getSettings w) = fetched w
  /\ timers (exec getSettings w) = timers w
  /\ inputs (exec getSettings w) = inputs w.
Proof.
  intros Hname. step. cbn.
  destruct Hname as [-> | ->]; cbn; repeat split; reflexivity.
Qed.

(** Multiplying by 1000 does not change whether a number is truthy. *)
Lemma truthy_times_1000 (n : number) :
  number_truthy (mul n (int 1000)) = number_truthy n.
Proof.
  destruct n as [| s | q]; try reflexivity.
  cbn [mul int number_truthy]. unfold is_zero. f_equal.
  destruct (Qeq_bool q (inject_Z 0)) eqn:E.
  - apply Qeq_bool_iff in E. apply Qeq_bool_iff. rewrite E. reflexivity.
  - apply Qeq_bool_neq in E.
    destruct (Qeq_bool (q * inject_Z 1000) (inject_Z 0)) eqn:E'; [|reflexivity].
    apply Qeq_bool_iff in E'. exfalso. apply E.
    destruct (Qmult_integral _ _ E') as [Hq | H1000]; [exact Hq|].
    discriminate H1000.
Qed.

Lemma run_poll (response : response) (w : world) :
  exec (run GetLogsSinceLastUpdate response) w
  = exec (getLogsSinceLastUpdate response) w.
Proof.
  unfold run, exec, bind.
  now destruct (getLogsSinceLastUpdate response w).
Qed.

Lemma submitSettings_accepted (response : response) (w : world) :
  result getSettings w = true ->
  exec (submitSettings response) w
  = exec (getLogsFromToDate response) (exec getSettings w).
Proof.
  unfold submitSettings, exec, bind, result.
  destruct (getSettings w) as [b w1]. cbn [fst snd]. intros ->.
  now destruct (getLogsFromToDate response w1).
Qed.
End FetchCycles.

(** ** FetchLogs: the claims *)

Section FetchClaims.
Import Js Dom FetchLogs.
Context `{Host}.

(** C3, amended: in live mode without an end date, one call of [showLogs]
    arms two timers, the scroll after 100 ms and exactly one poll after
    [updateDelay]; it sends nothing itself.  When that poll runs, its
    request carries [last_update] of the rendered response as
    [?last_update=] if that number is truthy, and no parameter at all if it
    is zero or [NaN]. *)
Theorem live_render_rearms_once (w : world) (res : body)
    (response : response) :
  isLiveUpdate (this w) = true ->
  truthy (toDate (this w)) = false ->
  timers (exec (showLogs res) w)
  = (timers w
     ++ [ {| handler := GoBottomList; delay := Num (int 100) |};
          {| handler := GetLogsSinceLastUpdate;
             delay := updateDelay (this w) |} ])%list
  /\ fetch_timers (timers (exec (showLogs res) w))
     = (fetch_timers (timers w)
        ++ [ {| handler := GetLogsSinceLastUpdate;
                delay := updateDelay (this w) |} ])%list
  /\ fetched (exec (showLogs res) w) = fetched w
  /\ fetched (exec (run GetLogsSinceLastUpdate response)
                (exec (showLogs res) w))
     = (fetched w
        ++ [ ((location_href w ++ "/" ++ instanceName (this w))
              ++ (if number_truthy (last_update res)
                  then "?last_update=" ++ NumberToString (last_update res)
                  else ""))%string ])%list.
Proof.
  intros Hlive Hto. rewrite run_poll, poll_fetched.
  unfold exec. rewrite showLogs_run.
  cbn [snd timers fetched location_href this]. unfold armed.
  rewrite Hlive, Hto. cbn [andb negb]. repeat split.
  now rewrite fetch_timers_app.
Qed.

(** C4: with an end date set, a successful cycle, range or poll, arms the
    scroll timer and nothing else; so does a submit whose form holds an end
    date.  In general a render arms a poll exactly when [isLiveUpdate] is
    true and [toDate] is falsy. *)
Theorem closed_range_is_one_shot (w : world) (res : body)
    (response : response) :
  fetch_timers (timers (exec (showLogs res) w))
  = (fetch_timers (timers w)
     ++ (if isLiveUpdate (this w) && negb (truthy (toDate (this w)))
         then [ {| handler := GetLogsSinceLastUpdate;
                   delay := updateDelay (this w) |} ]
         else []))%list
  /\ (status response = 200%Z ->
      truthy (toDate (this w)) = true ->
      timers (exec (getLogsFromToDate response) w)
      = (timers w
         ++ [ {| handler := GoBottomList; delay := Num (int 100) |} ])%list
      /\ timers (exec (getLogsSinceLastUpdate response) w)
         = (timers w
            ++ [ {| handler := GoBottomList; delay := Num (int 100) |} ])%list)
  /\ (status response = 200%Z ->
      result getSettings w = true ->
      number_truthy (toDateInp_valueAsNumber (inputs w)) = true ->
      timers (exec (submitSettings response) w)
      = (timers w
         ++ [ {| handler := GoBottomList; delay := Num (int 100) |} ])%list).
Proof.
  split; [|split].
  - unfold exec. rewrite showLogs_run. cbn [snd timers].
    now rewrite fetch_timers_app, fetch_timers_armed.
  - intros Hs Hto. rewrite range_cycle_run, poll_cycle_run by exact Hs.
    cbn [timers]. unfold armed. rewrite Hto, andb_false_r. now split.
  - intros Hs Hok Hto.
    rewrite (submitSettings_accepted response w Hok).
    rewrite range_cycle_run by exact Hs.
    rewrite (getSettings_accepts w Hok). cbn [timers this].
    unfold armed. cbn [toDate truthy]. rewrite Hto. cbn [truthy].
    now rewrite Hto, andb_false_r.
Qed.

(** C5: with an empty instance name, or the placeholder ["none"],
    [getSettings] answers false and the click on submit sends no request,
    neither at once nor when the timer fires to which a click during a live
    poll defers the work. *)
Theorem no_request_without_instance (w : world) (response later : response) :
  instance_textContent (inputs w) = ""
  \/ instance_textContent (inputs w) = "none" ->
  result getSettings w = false
  /\ fetched (exec (init_click response) w) = fetched w
  /\ fetched (exec (run SubmitSettings later) (exec (init_click response) w))
     = fetched w.
Proof.
  intros Hname. split; [apply (getSettings_rejects w Hname)|].
  destruct w as [o c href now rows tms sent out]. cbn [inputs] in Hname.
  step. cbn [this fst snd].
  destruct (isLiveUpdate o && negb (truthy (toDate o)));
    cbn; destruct Hname as [E | E]; rewrite E; cbn; rewrite ?E; cbn;
    split; reflexivity.
Qed.

(** C8, amended: after a successful cycle, range or poll, the cursor is
    the [last_update] of the response, whatever it was before; it has not
    moved back whenever the server's value is not below the old cursor. *)
Theorem cursor_follows_server (w : world) (response : response) :
  status response = 200%Z ->
  lastUpdate (this (exec (getLogsFromToDate response) w))
  = Num (last_update (json response))
  /\ lastUpdate (this (exec (getLogsSinceLastUpdate response) w))
     = Num (last_update (json response))
  /\ (forall old, lastUpdate (this w) = Num old ->
      leb old (last_update (json response)) = true ->
      exists new,
        lastUpdate (this (exec (getLogsSinceLastUpdate response) w)) = Num new
        /\ leb old new = true).
Proof.
  intros Hs. rewrite range_cycle_run, poll_cycle_run by exact Hs.
  cbn [this lastUpdate set_lastUpdate]. repeat split.
  intros old _ Hle. now exists (last_update (json response)).
Qed.

(** C10: when [getSettings] accepts the form, [updateDelay] becomes the
    text of the delay field itself if that text times 1000 is truthy, which
    is when the text converts to a number other than zero and [NaN], and
    2000 otherwise.  The poll timer armed by the next render then carries
    that text as its delay: it waits the number of milliseconds the text
    converts to. *)
Theorem update_delay_is_raw_input (w : world) (res : body) :
  result getSettings w = true ->
  updateDelay (this (exec getSettings w))
  = (if number_truthy
          (mul (ToNumber (updateDelayInp_value (inputs w))) (int 1000))
     then Str (updateDelayInp_value (inputs w))
     else Num (int 2000))
  /\ number_truthy
       (mul (ToNumber (updateDelayInp_value (inputs w))) (int 1000))
     = number_truthy (ToNumber (updateDelayInp_value (inputs w)))
  /\ (number_truthy (ToNumber (updateDelayInp_value (inputs w))) = true ->
      liveUpdateInp_checked (inputs w) = true ->
      number_truthy (toDateInp_valueAsNumber (inputs w)) = false ->
      timers (exec (showLogs res) (exec getSettings w))
      = (timers w
         ++ [ {| handler := GoBottomList; delay := Num (int 100) |};
              {| handler := GetLogsSinceLastUpdate;
                 delay := Str (updateDelayInp_value (inputs w)) |} ])%list
      /\ milliseconds
           {| handler := GetLogsSinceLastUpdate;
              delay := Str (updateDelayInp_value (inputs w)) |}
         = ToNumber (updateDelayInp_value (inputs w))).
Proof.
  intros Hok. rewrite (getSettings_accepts w Hok).
  cbn [this updateDelay truthy]. split; [reflexivity|].
  split; [apply truthy_times_1000|].
  intros Hn Hlive Hto. split; [|reflexivity].
  unfold exec. rewrite showLogs_run. cbn [snd timers this]. unfold armed.
  cbn [isLiveUpdate toDate updateDelay truthy].
  rewrite truthy_times_1000, Hn, Hlive, Hto. reflexivity.
Qed.

End FetchClaims.

(** ** FetchLogs on the sample page *)

Section FetchSamples.
Import Js Dom FetchLogs Samples.
#[local] Existing Instance decimal_host.

(** C1: on a freshly loaded page the form names the instance ["bw1"] and
    passes [getSettings]; the click on submit then hands [fetch] the string
    ["?to_date=false"] when no end date is set and ["?to_date="] followed by
    the end date when one is: neither holds the page address, the instance
    name or [from_date]. *)
Theorem range_request_is_to_date_alone :
  result getSettings (loaded (form "bw1" NaN "5" false)) = true
  /\ fetched (exec (init_click (ok 1000)) (loaded (form "bw1" NaN "5" false)))
     = ["?to_date=false"]
  /\ fetched (exec (init_click (ok 1000))
                (loaded (form "bw1" (int 1700003600000) "5" false)))
     = ["?to_date=1700003600000"]
  /\ includes "?to_date=false" "bw1" = false
  /\ includes "?to_date=false" "from_date" = false.
Proof. repeat split. Qed.

(** C3, as stated, fails: a live poll renders a response whose
    [last_update] is 0; the poll armed by that render asks for the bare
    instance path, with no [last_update] parameter. *)
Lemma zero_cursor_is_not_sent :
  isLiveUpdate (this (polling (form "bw1" NaN "5" true) 900)) = true
  /\ truthy (toDate (this (polling (form "bw1" NaN "5" true) 900))) = false
  /\ last_update (json (ok 0)) = int 0
  /\ fetched (exec (run GetLogsSinceLastUpdate (ok 1200))
                (exec (showLogs (json (ok 0)))
                   (polling (form "bw1" NaN "5" true) 900)))
     = ["http://ui.example/logs/bw1"].
Proof. repeat split. Qed.

Lemma live_render_rearms_once_sample :
  isLiveUpdate (this (polling (form "bw1" NaN "5" true) 900)) = true
  /\ truthy (toDate (this (polling (form "bw1" NaN "5" true) 900))) = false
  /\ timers (exec (showLogs (json (ok 1000)))
               (polling (form "bw1" NaN "5" true) 900))
     = [ {| handler := GoBottomList; delay := Num (int 100) |};
         {| handler := GetLogsSinceLastUpdate; delay := Str "5" |} ]
  /\ fetched (exec (run GetLogsSinceLastUpdate (ok 1200))
                (exec (showLogs (json (ok 1000)))
                   (polling (form "bw1" NaN "5" true) 900)))
     = ["http://ui.example/logs/bw1?last_update=1000"].
Proof.
  destruct (live_render_rearms_once
              (polling (form "bw1" NaN "5" true) 900)
              (json (ok 1000)) (ok 1200) eq_refl eq_refl)
    as (Htimers & _ & _ & Hsent).
  split; [reflexivity|]. split; [reflexivity|].
  split; [exact Htimers | exact Hsent].
Defined.

Lemma closed_range_is_one_shot_sample :
  status (ok 1000) = 200%Z
  /\ result getSettings
       (loaded (form "bw1" (int 1700003600000) "5" true)) = true
  /\ timers (exec (submitSettings (ok 1000))
               (loaded (form "bw1" (int 1700003600000) "5" true)))
     = [ {| handler := GoBottomList; delay := Num (int 100) |} ]
  /\ timers (exec (getLogsFromToDate (ok 1000))
               (exec getSettings
                  (loaded (form "bw1" (int 1700003600000) "5" true))))
     = [ {| handler := GoBottomList; delay := Num (int 100) |} ].
Proof.
  split; [reflexivity|]. split; [reflexivity|]. split.
  - exact (proj2 (proj2 (closed_range_is_one_shot
             (loaded (form "bw1" (int 1700003600000) "5" true))
             (json (ok 1000)) (ok 1000))) eq_refl eq_refl eq_refl).
  - exact (proj1 (proj1 (proj2 (closed_range_is_one_shot
             (exec getSettings
                (loaded (form "bw1" (int 1700003600000) "5" true)))
             (json (ok 1000)) (ok 1000))) eq_refl eq_refl)).
Defined.

Lemma no_request_without_instance_sample :
  instance_textContent (inputs (loaded (form "none" NaN "5" true))) = "none"
  /\ fetched (exec (init_click (ok 1000))
                (loaded (form "none" NaN "5" true))) = []
  /\ fetched (exec (run SubmitSettings (ok 1000))
                (exec (init_click (ok 1000))
                   (polling (form "" NaN "5" true) 900))) = [].
Proof.
  split; [reflexivity|]. split.
  - exact (proj1 (proj2 (no_request_without_instance
             (loaded (form "none" NaN "5" true)) (ok 1000) (ok 1000)
             (or_intror eq_refl)))).
  - exact (proj2 (proj2 (no_request_without_instance
             (polling (form "" NaN "5" true) 900) (ok 1000) (ok 1000)
             (or_introl eq_refl)))).
Defined.

(** C8, as stated, fails: the cursor stands at 1000 and a poll is answered
    with [last_update] 500; after the cycle the cursor is 500. *)
Lemma cursor_moves_back :
  lastUpdate (this (polling (form "bw1" NaN "5" true) 1000))
  = Num (int 1000)
  /\ lastUpdate
       (this (exec (getLogsSinceLastUpdate (ok 500))
                (polling (form "bw1" NaN "5" true) 1000)))
     = Num (int 500)
  /\ leb (int 1000) (int 500) = false.
Proof. repeat split. Qed.

Lemma cursor_follows_server_sample :
  status (ok 1200) = 200%Z
  /\ lastUpdate
       (this (exec (getLogsSinceLastUpdate (ok 1200))
                (polling (form "bw1" NaN "5" true) 1000)))
     = Num (int 1200)
  /\ lastUpdate
       (this (exec (getLogsFromToDate (ok 1200))
                (loaded (form "bw1" NaN "5" true))))
     = Num (int 1200).
Proof.
  split; [reflexivity|]. split.
  - exact (proj1 (proj2 (cursor_follows_server
             (polling (form "bw1" NaN "5" true) 1000) (ok 1200) eq_refl))).
  - exact (proj1 (cursor_follows_server
             (loaded (form "bw1" NaN "5" true)) (ok 1200) eq_refl)).
Defined.

Lemma update_delay_is_raw_input_sample :
  result getSettings (loaded (form "bw1" NaN "5" true)) = true
  /\ updateDelay (this (exec getSettings (loaded (form "bw1" NaN "5" true))))
     = Str "5"
  /\ updateDelay (this (exec getSettings (loaded (form "bw1" NaN "" true))))
     = Num (int 2000)
  /\ timers (exec (showLogs (json (ok 1000)))
               (exec getSettings (loaded (form "bw1" NaN "5" true))))
     = [ {| handler := GoBottomList; delay := Num (int 100) |};
         {| handler := GetLogsSinceLastUpdate; delay := Str "5" |} ]
  /\ milliseconds {| handler := GetLogsSinceLastUpdate; delay := Str "5" |}
     = int 5.
Proof.
  split; [reflexivity|]. split; [|split].
  - exact (proj1 (update_delay_is_raw_input
             (loaded (form "bw1" NaN "5" true)) (json (ok 1000)) eq_refl)).
  - exact (proj1 (update_delay_is_raw_input
             (loaded (form "bw1" NaN "" true)) (json (ok 1000)) eq_refl)).
  - exact (proj2 (proj2 (update_delay_is_raw_input
             (loaded (form "bw1" NaN "5" true)) (json (ok 1000)) eq_refl))
             eq_refl eq_refl eq_refl).
Defined.

End FetchSamples.

(** * Further properties *)

(** ** Class lists as token sets *)

Section TokenFacts.
Import Dom.

Lemma contains_add_any (c d : string) (l : list string) :
  contains c (add d l) = contains c l || (c =? d).
Proof.
  unfold add. destruct (contains d l) eqn:E.
  - destruct (String.eqb_spec c d) as [->|_];
      [now rewrite E | now rewrite orb_false_r].
  - rewrite contains_app. cbn. now rewrite orb_false_r.
Qed.

Lemma contains_remove_any (c d : string) (l : list string) :
  contains c (remove d l) = contains c l && negb (c =? d).
Proof.
  unfold contains, remove. induction l as [|x l IH]; [reflexivity|].
  cbn. destruct (String.eqb_spec d x) as [<-|Hdx]; cbn.
  - rewrite IH. destruct (String.eqb_spec c d); cbn;
      [now rewrite andb_false_r | now rewrite andb_true_r].
  - rewrite IH. destruct (String.eqb_spec c x) as [->|_]; cbn; [|reflexivity].
    destruct (String.eqb_spec x d) as [->|_]; [now destruct Hdx|reflexivity].
Qed.

Lemma remove_add (c : string) (l : list string) :
  remove c (add c l) = remove c l.
Proof.
  unfold add. destruct (contains c l); [reflexivity|].
  unfold remove. rewrite filter_app. cbn. rewrite String.eqb_refl. cbn.
  apply app_nil_r.
Qed.

Lemma remove_remove (c : string) (l : list string) :
  remove c (remove c l) = remove c l.
Proof.
  unfold remove. induction l as [|x l IH]; [reflexivity|].
  cbn. destruct (c =? x) eqn:E; cbn; [exact IH|]. now rewrite E, IH.
Qed.

Lemma add_add (c : string) (l : list string) : add c (add c l) = add c l.
Proof. unfold add at 1. now rewrite contains_add. Qed.

Lemma classList_add_twice (c : string) (el : li) :
  classList_add c (classList_add c el) = classList_add c el.
Proof. unfold classList_add. cbn [classList]. now rewrite add_add. Qed.

Lemma classList_remove_add (c : string) (el : li) :
  classList_remove c (classList_add c el) = classList_remove c el.
Proof.
  unfold classList_add, classList_remove. cbn [classList].
  now rewrite remove_add.
Qed.

Lemma classList_remove_twice (c : string) (el : li) :
  classList_remove c (classList_remove c el) = classList_remove c el.
Proof.
  unfold classList_remove. cbn [classList]. now rewrite remove_remove.
Qed.
End TokenFacts.

(** ** FilterLogs: shape of the result *)

Section FilterShape.
Import Dom FilterLogs.

Lemma type_row_shape (this : t) (el : li) :
  type_row this el
  = if type_keeps (lastType this) (logs_type el) then el
    else classList_add "hidden" el.
Proof.
  unfold type_row, setFilterType_body, type_keeps.
  destruct (lastType this =? "all"); [reflexivity|].
  destruct (lastType this =? "misc"); cbn [negb andb].
  - destruct (logs_type el =? "info"), (logs_type el =? "message");
      reflexivity.
  - destruct (logs_type el =? lastType this); reflexivity.
Qed.

Lemma keyword_row_shape (keyword : string) (el : li) :
  keyword_row keyword el
  = if keyword_keeps keyword (logs_content el) then el
    else classList_add "hidden" el.
Proof.
  unfold keyword_row, setFilterKeyword_body, keyword_keeps. cbn [Js.truthy].
  destruct (keyword =? ""); cbn [negb orb]; [reflexivity|].
  now destruct (Js.includes (logs_content el) keyword).
Qed.

Lemma filter_row_shape (this : t) (keyword : string) (el : li) :
  filter_row this keyword el
  = if type_keeps (lastType this) (logs_type el)
       && keyword_keeps keyword (logs_content el)
    then classList_remove "hidden" el
    else classList_add "hidden" (classList_remove "hidden" el).
Proof.
  unfold filter_row. rewrite keyword_row_shape, type_row_shape.
  change (logs_type (classList_remove "hidden" el)) with (logs_type el).
  destruct (type_keeps (lastType this) (logs_type el)); cbn [andb].
  - reflexivity.
  - cbn [logs_content classList_add].
    change (logs_content (classList_remove "hidden" el))
      with (logs_content el).
    destruct (keyword_keeps keyword (logs_content el));
      [reflexivity | apply classList_add_twice].
Qed.

(** X1: [filter] is idempotent: running it again with the same type and
    keyword gives the very same rows, class lists included. *)
Theorem filter_idempotent (this : t) (keyword : string) (logs : list li) :
  fst (filter this keyword (fst (filter this keyword logs)))
  = fst (filter this keyword logs).
Proof.
  rewrite !filter_rows, map_map. apply map_ext. intros el.
  rewrite (filter_row_shape this keyword (filter_row this keyword el)).
  destruct (filter_row_texts this keyword el) as [-> ->].
  rewrite (filter_row_shape this keyword el).
  destruct (type_keeps _ _ && keyword_keeps _ _).
  - now rewrite classList_remove_twice.
  - now rewrite classList_remove_add, classList_remove_twice.
Qed.

(** X2: [filter] touches nothing but the token ["hidden"]: the rows keep
    their number and order, their type and content texts, and every other
    class token. *)
Theorem filter_only_toggles_hidden (this : t) (keyword : string)
    (logs : list li) :
  List.length (fst (filter this keyword logs)) = List.length logs
  /\ map logs_type (fst (filter this keyword logs)) = map logs_type logs
  /\ map logs_content (fst (filter this keyword logs))
     = map logs_content logs
  /\ map (fun el => remove "hidden" (classList el))
       (fst (filter this keyword logs))
     = map (fun el => remove "hidden" (classList el)) logs
  /\ (forall c, c <> "hidden" ->
      map (fun el => contains c (classList el))
        (fst (filter this keyword logs))
      = map (fun el => contains c (classList el)) logs).
Proof.
  rewrite filter_rows. rewrite length_map, !map_map.
  split; [reflexivity|].
  split; [apply map_ext; intros el; apply filter_row_texts|].
  split; [apply map_ext; intros el; apply filter_row_texts|].
  split.
  - apply map_ext; intros el; rewrite filter_row_shape.
    destruct (type_keeps _ _ && keyword_keeps _ _);
      cbn [classList_add classList_remove classList];
      now rewrite ?remove_add, ?remove_remove.
  - intros c Hc. rewrite map_map.
    apply map_ext; intros el; rewrite filter_row_shape.
    destruct (type_keeps _ _ && keyword_keeps _ _);
      cbn [classList_add classList_remove classList];
      rewrite ?contains_add_any, ?contains_remove_any,
        (proj2 (String.eqb_neq _ _) Hc);
      now rewrite andb_true_r, ?orb_false_r.
Qed.

(** X3: the two predicates commute: hiding by type and then by keyword
    gives the same rows as hiding by keyword and then by type. *)
Theorem predicates_commute (this : t) (keyword : string) (logs : list li) :
  setFilterKeyword keyword (setFilterType this logs)
  = setFilterType this (setFilterKeyword keyword logs).
Proof.
  rewrite !setFilterKeyword_rows, !setFilterType_rows, !map_map.
  apply map_ext. intros el.
  rewrite (keyword_row_shape keyword (type_row this el)).
  rewrite (type_row_shape this (keyword_row keyword el)).
  destruct (type_row_texts this el) as [_ ->].
  destruct (keyword_row_texts keyword el) as [-> _].
  rewrite type_row_shape, keyword_row_shape.
  destruct (type_keeps _ _), (keyword_keeps _ _); try reflexivity.
Qed.

(** X4: how a call of [filter] ends.  On an empty list it returns at once
    and changes nothing; on any other list it applies both predicates and
    then throws, [setFilterDate] being no method of the class.  The click
    handler of the types catches that, the keyword handler lets it escape;
    both leave the filtered rows behind. *)
Theorem filter_completion (this : t) (btnValue keyword : string)
    (logs : list li) :
  filter this keyword [] = ([], Return)
  /\ (logs <> [] ->
      snd (filter this keyword logs)
      = Throw "TypeError: this.setFilterDate is not a function"
      /\ snd (keyword_input this keyword logs)
         = Throw "TypeError: this.setFilterDate is not a function"
      /\ snd (type_click this btnValue keyword logs) = Return
      /\ snd (fst (keyword_input this keyword logs))
         = map (filter_row this keyword) logs
      /\ snd (fst (type_click this btnValue keyword logs))
         = map (filter_row {| lastType := btnValue |} keyword) logs).
Proof.
  split; [reflexivity|]. intros Hne.
  destruct logs as [|el logs]; [now destruct Hne|].
  unfold keyword_input, type_click. cbn [fst snd].
  rewrite !filter_rows. repeat split.
Qed.
End FilterShape.

(** ** FetchLogs: failures, rendering and the submit button *)

Section FetchMore.
Import Js Dom FetchLogs.
Context `{Host}.

Lemma getSettings_refuses (w : world) :
  result getSettings w = false ->
  exec getSettings w
  = {| this := set_instanceName (instance_textContent (inputs w)) (this w);
       inputs := inputs w;
       location_href := location_href w;
       Date_now := Date_now w;
       logListContainer := logListContainer w;
       timers := timers w;
       fetched := fetched w;
       console := console w |}.
Proof.
  step. cbn.
  destruct (negb (negb _) || _);
    cbn; [intros _; reflexivity | intros E; discriminate E].
Qed.

Lemma submitSettings_refused (response : response) (w : world) :
  result getSettings w = false ->
  exec (submitSettings response) w = exec getSettings w.
Proof.
  unfold submitSettings, exec, bind, result.
  destruct (getSettings w) as [b w1]. cbn [fst snd]. now intros ->.
Qed.

Lemma run_submit (response : response) (w : world) :
  exec (run SubmitSettings response) w = exec (submitSettings response) w.
Proof. reflexivity. Qed.

(** X5: a response whose status is not 200 ends the cycle, range or
    poll: the request was sent and the console gets ["Error: "] followed by
    the status; no row is rendered, the cursor and the settings stay, and no
    timer is armed, so a live loop stops there.  The method answers
    [null]. *)
Theorem failed_cycle_stops (response : response) (w : world) :
  status response <> 200%Z ->
  exec (getLogsFromToDate response) w
  = {| this := this w;
       inputs := inputs w;
       location_href := location_href w;
       Date_now := Date_now w;
       logListContainer := logListContainer w;
       timers := timers w;
       fetched :=
         (fetched w
          ++ [("?to_date=" ++ ToString (toDate (this w)))%string])%list;
       console :=
         (console w
          ++ [("Error: "
               ++ NumberToString (int (status response)))%string])%list |}
  /\ exec (getLogsSinceLastUpdate response) w
     = {| this := this w;
          inputs := inputs w;
          location_href := location_href w;
          Date_now := Date_now w;
          logListContainer := logListContainer w;
          timers := timers w;
          fetched :=
            (fetched w
             ++ [sinceLastUpdate_url (location_href w) (this w)])%list;
          console :=
            (console w
             ++ [("Error: "
                  ++ NumberToString (int (status response)))%string])%list |}
  /\ result (getLogsFromToDate response) w = null
  /\ result (getLogsSinceLastUpdate response) w = null.
Proof.
  intros Hs. apply Z.eqb_neq in Hs.
  step. cbn -[showLogs]. rewrite Hs, fromToDate_url_eq. repeat split.
Qed.

(** X6: [showLogs] leaves the rows of the list as they are, hidden ones
    included, and appends one row per record of the response, in order,
    with the record's type and content; the new rows are visible whatever
    filter was applied to the list before. *)
Theorem showLogs_appends_visible_rows (res : body) (w : world) :
  logListContainer (exec (showLogs res) w)
  = (logListContainer w ++ map createRow (logs res))%list
  /\ map logs_type (map createRow (logs res)) = map type (logs res)
  /\ map logs_content (map createRow (logs res)) = map content (logs res)
  /\ map visible (map createRow (logs res))
     = map (fun _ => true) (logs res)
  /\ List.length (logListContainer (exec (showLogs res) w))
     = (List.length (logListContainer w) + List.length (logs res))%nat.
Proof.
  unfold exec. rewrite showLogs_run. cbn [snd logListContainer].
  rewrite !map_map, length_app, length_map. repeat split.
Qed.

(** X7: a click on submit while a live poll runs (live, no end date)
    empties the list and arms one timer for the deferred submit, with the
    delay of the running poll; it sends nothing and reads no control: the
    settings stay as they were. *)
Theorem click_during_live_poll_defers (response : response) (w : world) :
  isLiveUpdate (this w) = true ->
  truthy (toDate (this w)) = false ->
  exec (init_click response) w
  = {| this := this w;
       inputs := inputs w;
       location_href := location_href w;
       Date_now := Date_now w;
       logListContainer := [];
       timers :=
         (timers w
          ++ [{| handler := SubmitSettings;
                 delay := updateDelay (this w) |}])%list;
       fetched := fetched w;
       console := console w |}.
Proof.
  intros Hlive Hto. step. cbn. now rewrite Hlive, Hto.
Qed.


(** X9: a refused form still overwrites [instanceName], and nothing else.
    A poll that is still armed then asks for the refused name: after the
    deferred submit found the placeholder ["none"] (or nothing) in the
    instance field, the next poll requests [<page>/none]. *)
Theorem refused_name_reaches_next_poll (w : world)
    (response later : response) :
  instance_textContent (inputs w) = ""
  \/ instance_textContent (inputs w) = "none" ->
  this (exec (run SubmitSettings response) w)
  = set_instanceName (instance_textContent (inputs w)) (this w)
  /\ timers (exec (run SubmitSettings response) w) = timers w
  /\ fetched (exec (run GetLogsSinceLastUpdate later)
                (exec (run SubmitSettings response) w))
     = (fetched w
        ++ [ ((location_href w ++ "/" ++ instance_textContent (inputs w))
              ++ (if truthy (lastUpdate (this w))
                  then "?last_update=" ++ ToString (lastUpdate (this w))
                  else ""))%string ])%list.
Proof.
  intros Hname.
  destruct (getSettings_rejects w Hname) as (Hno & _).
  rewrite run_poll, poll_fetched, !run_submit.
  rewrite (submitSettings_refused response w Hno).
  rewrite (getSettings_refuses w Hno).
  cbn [this timers fetched location_href]. repeat split.
Qed.
End FetchMore.

(** ** The page over time: what stays true *)

Section SessionFacts.
Import Js Dom FetchLogs Session.
Context `{Host}.

Lemma click_outside_live (response : response) (w : world) :
  isLiveUpdate (this w) && negb (truthy (toDate (this w))) = false ->
  exec (init_click response) w
  = exec (submitSettings response)
      {| this := this w; inputs := inputs w;
         location_href := location_href w; Date_now := Date_now w;
         logListContainer := []; timers := timers w;
         fetched := fetched w; console := console w |}.
Proof.
  intros Hlive. unfold init_click, exec, bind, set_list, get_this. cbn.
  now rewrite Hlive.
Qed.

(** Whether [getSettings] accepts depends on the instance field alone. *)
Lemma getSettings_result (w : world) :
  result getSettings w
  = negb (negb (truthy (Str (instance_textContent (inputs w))))
          || (trim (instance_textContent (inputs w)) =? "none")).
Proof. step. cbn. now destruct (negb (negb _) || _). Qed.

Lemma settled_set_lastUpdate (v : value) (o : t) :
  settled o -> settled (set_lastUpdate v o).
Proof. intros Ho. exact Ho. Qed.

Lemma settled_set_instanceName (s : string) (o : t) :
  settled o -> settled (set_instanceName s o).
Proof. intros Ho. exact Ho. Qed.

Lemma armed_delays (o : t) :
  settled o -> Forall (fun tm => delay_ok (delay tm)) (armed o).
Proof.
  intros (_ & _ & Hd). unfold armed. constructor; [now left|].
  destruct (isLiveUpdate o && _); constructor; [|constructor].
  cbn [delay]. destruct Hd as [-> | Hv]; [right; now left | right; now right].
Qed.

Lemma steady_cycle (response : response) (w : world) :
  steady w ->
  steady (exec (getLogsFromToDate response) w)
  /\ steady (exec (getLogsSinceLastUpdate response) w).
Proof.
  intros [Ho Ht]. destruct (Z.eq_dec (status response) 200) as [Hs | Hs].
  - rewrite range_cycle_run, poll_cycle_run by exact Hs.
    split; (split; cbn [this timers];
      [now apply settled_set_lastUpdate
      | apply Forall_app; split; [exact Ht | now apply armed_delays]]).
  - destruct (failed_cycle_stops response w Hs) as (-> & -> & _).
    split; split; assumption.
Qed.

Lemma steady_getSettings (w : world) :
  steady w -> steady (exec getSettings w).
Proof.
  intros [Ho Ht]. destruct (result getSettings w) eqn:E.
  - rewrite (getSettings_accepts w E). split; [|exact Ht].
    destruct Ho as (Hfrom & _ & _). cbn [this]. repeat split.
    + exact Hfrom.
    + cbn [toDate truthy].
      destruct (number_truthy (toDateInp_valueAsNumber (inputs w))) eqn:En;
        [right; right; eauto | right; now left].
    + cbn [updateDelay truthy]. rewrite truthy_times_1000.
      destruct (number_truthy (ToNumber _)) eqn:En;
        [right; eauto | now left].
  - rewrite (getSettings_refuses w E). split; [|exact Ht].
    now apply settled_set_instanceName.
Qed.

Lemma steady_submitSettings (response : response) (w : world) :
  steady w -> steady (exec (submitSettings response) w).
Proof.
  intros Hw. destruct (result getSettings w) eqn:E.
  - rewrite (submitSettings_accepted response w E).
    now apply steady_cycle, steady_getSettings.
  - rewrite (submitSettings_refused response w E).
    now apply steady_getSettings.
Qed.

Lemma steady_handle (e : event) (w : world) :
  steady w -> steady (exec (handle e) w).
Proof.
  intros Hw. destruct e as [c | now | response | h response]; cbn [handle].
  - exact Hw.
  - exact Hw.
  - destruct (isLiveUpdate (this w) && negb (truthy (toDate (this w))))
      eqn:Hlive.
    + apply andb_prop in Hlive as [Hl Hto]. apply negb_true_iff in Hto.
      rewrite (click_during_live_poll_defers response w Hl Hto).
      destruct Hw as [Ho Ht]. split; [exact Ho|]. cbn [timers].
      apply Forall_app. split; [exact Ht|]. constructor; [|constructor].
      cbn [delay]. destruct Ho as (_ & _ & [-> | Hv]);
        [right; now left | right; now right].
    + rewrite (click_outside_live response w Hlive).
      apply steady_submitSettings. exact Hw.
  - destruct h.
    + exact Hw.
    + rewrite run_poll. now apply steady_cycle.
    + rewrite run_submit. now apply steady_submitSettings.
Qed.

Lemma steady_play (es : list event) (w : world) :
  steady w -> steady (play es w).
Proof.
  revert w. induction es as [|e es IH]; intros w Hw; [exact Hw|].
  cbn [play]. now apply IH, steady_handle.
Qed.

(** X10: whatever the user and the timers do after the page is loaded,
    in any order and with any responses, [fromDate] stays the empty string
    of the constructor; [toDate] is that empty string, [false] or a truthy
    number; [updateDelay] is 2000 or a delay text that converts to a number
    other than zero and [NaN]; and every timer ever armed waits 100 ms,
    2000 ms or such a text. *)
Theorem settings_stay_settled (now : Z) (href : string) (c : controls)
    (es : list event) :
  fromDate (this (play es (start now href c))) = Str ""
  /\ (toDate (this (play es (start now href c))) = Str ""
      \/ toDate (this (play es (start now href c))) = Bool false
      \/ exists n, toDate (this (play es (start now href c))) = Num n
                   /\ number_truthy n = true)
  /\ (updateDelay (this (play es (start now href c))) = Num (int 2000)
      \/ exists v, updateDelay (this (play es (start now href c))) = Str v
                   /\ number_truthy (ToNumber v) = true)
  /\ Forall (fun tm => delay tm = Num (int 100)
                       \/ delay tm = Num (int 2000)
                       \/ exists v, delay tm = Str v
                                    /\ number_truthy (ToNumber v) = true)
       (timers (play es (start now href c))).
Proof.
  assert (Hstart : steady (start now href c)).
  { split; [|constructor]. repeat split; [now left | now left]. }
  destruct (steady_play es _ Hstart) as [(Hfrom & Hto & Hd) Ht].
  repeat split; assumption.
Qed.

(** X11: a click on submit during a live poll does not end that poll.
    Let the poll that was armed fire, then the deferred submit, the form
    being accepted, live and without end date, and both answers being 200:
    the deferred submit does not empty the list again, so the rows of the
    poll stay above those of the range request; and both renders arm a
    poll, so two polls are armed where one was. *)
Theorem click_during_live_poll_doubles_it (w : world)
    (r0 r1 r2 : response) :
  isLiveUpdate (this w) = true ->
  truthy (toDate (this w)) = false ->
  result getSettings w = true ->
  liveUpdateInp_checked (inputs w) = true ->
  number_truthy (toDateInp_valueAsNumber (inputs w)) = false ->
  status r1 = 200%Z ->
  status r2 = 200%Z ->
  logListContainer
    (play [Click r0; Fire GetLogsSinceLastUpdate r1; Fire SubmitSettings r2]
       w)
  = (map createRow (logs (json r1)) ++ map createRow (logs (json r2)))%list
  /\ fetch_timers
       (timers
          (play [Click r0; Fire GetLogsSinceLastUpdate r1;
                 Fire SubmitSettings r2] w))
     = (fetch_timers (timers w)
        ++ [ {| handler := SubmitSettings; delay := updateDelay (this w) |};
             {| handler := GetLogsSinceLastUpdate;
                delay := updateDelay (this w) |};
             {| handler := GetLogsSinceLastUpdate;
                delay :=
                  if number_truthy
                       (ToNumber (updateDelayInp_value (inputs w)))
                  then Str (updateDelayInp_value (inputs w))
                  else Num (int 2000) |} ])%list
  /\ List.length
       (fetched
          (play [Click r0; Fire GetLogsSinceLastUpdate r1;
                 Fire SubmitSettings r2] w))
     = S (S (List.length (fetched w))).
Proof.
  intros Hlive Hto Hok Hchecked Hend Hs1 Hs2.
  cbn [play handle].
  rewrite (click_during_live_poll_defers r0 w Hlive Hto).
  rewrite run_poll, (poll_cycle_run r1) by exact Hs1.
  cbn [this inputs location_href Date_now logListContainer timers fetched
       console app].
  rewrite run_submit.
  match goal with |- context [exec (submitSettings r2) ?x] =>
    set (w2 := x) end.
  assert (Hok2 : result getSettings w2 = true).
  { rewrite getSettings_result. rewrite getSettings_result in Hok.
    exact Hok. }
  rewrite (submitSettings_accepted r2 w2 Hok2).
  rewrite (range_cycle_run r2) by exact Hs2.
  rewrite (getSettings_accepts w2 Hok2). subst w2.
  cbn [this inputs location_href Date_now logListContainer timers fetched
       console].
  unfold armed.
  cbn [isLiveUpdate toDate updateDelay set_lastUpdate truthy].
  rewrite Hlive, Hto, Hchecked, Hend, truthy_times_1000.
  cbn [andb negb truthy]. rewrite !fetch_timers_app, !length_app.
  cbn. split; [reflexivity|]. split; [|lia].
  now rewrite <- !app_assoc.
Qed.
End SessionFacts.

(** ** LogsDropdown: what each method does to the page *)

Section DropdownFacts.
Import Dom LogsDropdown.

Lemma find_name (s : string) (l : list select) (x : select) :
  find s l = Some x -> name x = s.
Proof.
  induction l as [|y l IH]; cbn; [discriminate|].
  destruct (String.eqb_spec (name y) s) as [E|_]; [|exact IH].
  now intros [= <-].
Qed.

Lemma find_update_same (s : string) (f : select -> select)
    (l : list select) :
  keeps_name f -> find s (update s f l) = option_map f (find s l).
Proof.
  intros Hf. induction l as [|y l IH]; [reflexivity|]. cbn.
  destruct (name y =? s) eqn:E; cbn.
  - now rewrite Hf, E.
  - now rewrite E.
Qed.

Lemma find_update_other (s s' : string) (f : select -> select)
    (l : list select) :
  keeps_name f -> s' <> s -> find s' (update s f l) = find s' l.
Proof.
  intros Hf Hs. induction l as [|y l IH]; [reflexivity|]. cbn.
  destruct (String.eqb_spec (name y) s) as [E|E]; cbn.
  - rewrite Hf. rewrite E.
    now rewrite (proj2 (String.eqb_neq s s')) by congruence.
  - now rewrite IH.
Qed.

Lemma update_update (s : string) (f g : select -> select)
    (l : list select) :
  keeps_name f ->
  update s g (update s f l) = update s (fun x => g (f x)) l.
Proof.
  intros Hf. induction l as [|y l IH]; [reflexivity|]. cbn.
  destruct (name y =? s) eqn:E; cbn.
  - now rewrite Hf, E.
  - now rewrite E, IH.
Qed.

Lemma update_fixed (s : string) (f : select -> select) (l : list select)
    (x : select) :
  find s l = Some x -> f x = x -> update s f l = l.
Proof.
  induction l as [|y l IH]; [discriminate|]. cbn.
  destruct (name y =? s); [intros [= ->] ->; reflexivity|].
  intros Hx Hf. now rewrite IH.
Qed.

Lemma update_absent (s : string) (f : select -> select) (l : list select) :
  find s l = None -> update s f l = l.
Proof.
  induction l as [|y l IH]; [reflexivity|]. cbn.
  destruct (name y =? s); [discriminate|]. intros Hx. now rewrite IH.
Qed.

Lemma keeps_name_text v : keeps_name (set_text v).
Proof. now intros x. Qed.
Lemma keeps_name_dropdown f : keeps_name (set_dropdown f).
Proof. now intros x. Qed.
Lemma keeps_name_chevron f : keeps_name (set_chevron f).
Proof. now intros x. Qed.
Lemma keeps_name_buttons f : keeps_name (set_buttons f).
Proof. now intros x. Qed.
Lemma keeps_name_compose f g :
  keeps_name f -> keeps_name g -> keeps_name (fun x => g (f x)).
Proof. intros Hf Hg x. now rewrite Hg, Hf. Qed.

(** Membership after several additions or removals. *)
Lemma contains_add_all (c : string) (cs l : list string) :
  contains c (add_all cs l) = contains c l || contains c cs.
Proof.
  unfold add_all. revert l.
  induction cs as [|d cs IH]; intros l; cbn [fold_left].
  - cbn. now rewrite orb_false_r.
  - rewrite IH, contains_add_any. cbn [contains existsb].
    now rewrite orb_assoc.
Qed.

Lemma contains_remove_all (c : string) (cs l : list string) :
  contains c (remove_all cs l) = contains c l && negb (contains c cs).
Proof.
  unfold remove_all. revert l.
  induction cs as [|d cs IH]; intros l; cbn [fold_left].
  - cbn. now rewrite andb_true_r.
  - rewrite IH, contains_remove_any. cbn [contains existsb].
    now rewrite negb_orb, andb_assoc.
Qed.

Lemma contains_toggle (c d : string) (l : list string) :
  contains c (toggle d l)
  = if c =? d then negb (contains c l) else contains c l.
Proof.
  unfold toggle. destruct (contains d l) eqn:E.
  - rewrite contains_remove_any.
    destruct (String.eqb_spec c d) as [->|_]; cbn;
      [now rewrite E | now rewrite andb_true_r].
  - rewrite contains_app. cbn. rewrite orb_false_r.
    destruct (String.eqb_spec c d) as [->|_];
      [now rewrite E | now rewrite orb_false_r].
Qed.

Lemma remove_absent (c : string) (l : list string) :
  contains c l = false -> remove c l = l.
Proof.
  unfold contains, remove. induction l as [|x l IH]; [reflexivity|]. cbn.
  destruct (c =? x); cbn; [discriminate|]. intros E. now rewrite IH.
Qed.

Lemma add_present (c : string) (l : list string) :
  contains c l = true -> add c l = l.
Proof. intros E. unfold add. now rewrite E. Qed.

Ltac unfold_methods :=
  unfold hideDropdown, toggleSelectBtn, setSelectNewValue,
    changeDropBtnStyle, isSameValue, bind, ret, throw, querySelector,
    set_select;
  cbn [selects from_date_div to_date_div console].

Ltac keeps := intros ?; reflexivity.

Ltac found Hx :=
  repeat (rewrite update_update by keeps);
  rewrite ?find_update_same by keeps;
  rewrite ?Hx; cbn [option_map];
  cbn [selects from_date_div to_date_div console].

Lemma hideDropdown_run (s : string) (p : page) (x : select) :
  find s (selects p) = Some x ->
  hideDropdown s p
  = (Some tt,
     with_select s
       (fun x => set_chevron (remove "rotate-180")
                   (set_dropdown (remove "flex")
                      (set_dropdown (add "hidden") x))) p).
Proof.
  intros Hx. unfold_methods. rewrite Hx. found Hx. found Hx. reflexivity.
Qed.

Lemma toggleSelectBtn_run (s : string) (p : page) (x : select) :
  find s (selects p) = Some x ->
  toggleSelectBtn s p
  = (Some tt,
     with_select s
       (fun x => set_chevron (toggle "rotate-180")
                   (set_dropdown (toggle "flex")
                      (set_dropdown (toggle "hidden") x))) p).
Proof.
  intros Hx. unfold_methods. rewrite Hx. found Hx. reflexivity.
Qed.

Lemma setSelectNewValue_run (s : string) (v : option string) (p : page)
    (x : select) :
  find s (selects p) = Some x ->
  setSelectNewValue s v p
  = (Some tt,
     with_select s
       (set_text (match v with Some v => v | None => "" end)) p).
Proof. intros Hx. unfold_methods. now rewrite Hx. Qed.

Lemma isSameValue_run (s : string) (v : option string) (p : page)
    (x : select) :
  find s (selects p) = Some x ->
  isSameValue s v p
  = (Some (match v with Some v => text x =? v | None => false end), p).
Proof.
  intros Hx. unfold_methods. rewrite Hx. destruct v as [v|]; [|reflexivity].
  now destruct (text x =? v).
Qed.

Lemma update_ext (s : string) (f g : select -> select) (l : list select) :
  (forall x, f x = g x) -> update s f l = update s g l.
Proof.
  intros Hfg. induction l as [|y l IH]; [reflexivity|]. cbn.
  destruct (name y =? s); [now rewrite Hfg | now rewrite IH].
Qed.

Lemma update_nth_twice {A} (i : nat) (f g : A -> A) (l : list A) :
  update_nth i g (update_nth i f l) = update_nth i (fun a => g (f a)) l.
Proof.
  revert i. induction l as [|a l IH]; intros [|i]; cbn; try reflexivity.
  now rewrite IH.
Qed.

Lemma changeDropBtnStyle_run (s : string) (i : nat) (p : page)
    (x : select) :
  find s (selects p) = Some x ->
  changeDropBtnStyle s i p
  = (Some tt,
     with_select s
       (set_buttons
          (fun bs =>
             update_nth i
               (set_btn_classList select_style)
               (map (set_btn_classList reset_style) bs))) p).
Proof.
  intros Hx. unfold_methods. rewrite Hx. found Hx.
  unfold with_select. do 2 f_equal. apply update_ext. intros y.
  unfold set_buttons. cbn [name text dropdown chevron buttons].
  f_equal. now rewrite update_nth_twice.
Qed.

Lemma missing_setting_throws (s : string) (i : nat) (v : option string)
    (p : page) :
  find s (selects p) = None ->
  hideDropdown s p = (None, p)
  /\ toggleSelectBtn s p = (None, p)
  /\ setSelectNewValue s v p = (None, p)
  /\ changeDropBtnStyle s i p = (None, p)
  /\ isSameValue s v p = (None, p).
Proof. intros Hx. unfold_methods. rewrite Hx. repeat split. Qed.
End DropdownFacts.

(** ** LogsDropdown: menus, buttons and clicks *)

Section DropdownClaims.
Import Dom LogsDropdown.

Ltac keeps := intros ?; reflexivity.

Lemma close_closed (x : select) : closed (close x).
Proof.
  unfold closed, close. cbn [dropdown chevron set_chevron set_dropdown].
  rewrite !contains_remove_any, !contains_add_any. cbn.
  now rewrite orb_true_r, !andb_false_r.
Qed.

Lemma close_of_closed (x : select) : closed x -> close x = x.
Proof.
  intros (Hh & Hf & Hr). destruct x as [n t d c b].
  cbn [dropdown chevron] in Hh, Hf, Hr.
  unfold close, set_chevron, set_dropdown.
  cbn [name text dropdown chevron buttons].
  now rewrite (add_present _ _ Hh), (remove_absent _ _ Hf),
    (remove_absent _ _ Hr).
Qed.

Lemma with_select_fixed (s : string) (f : select -> select) (p : page)
    (x : select) :
  find s (selects p) = Some x -> f x = x -> with_select s f p = p.
Proof.
  intros Hx Hf. destruct p as [l fd td out]. unfold with_select.
  cbn [selects from_date_div to_date_div console] in *.
  now rewrite (update_fixed s f _ x Hx Hf).
Qed.

Lemma nth_error_update_nth {A} (i j : nat) (f : A -> A) (l : list A) :
  nth_error (update_nth i f l) j
  = if (j =? i)%nat then option_map f (nth_error l j) else nth_error l j.
Proof.
  revert i j. induction l as [|a l IH]; intros [|i] [|j]; cbn;
    try reflexivity.
  - now destruct (j =? i)%nat.
  - apply IH.
Qed.

Lemma select_style_highlighted (b : button) :
  highlighted (set_btn_classList select_style b).
Proof.
  unfold highlighted, select_style. cbn [btn_classList set_btn_classList].
  split; repeat constructor;
    rewrite contains_add_all, contains_remove_all;
    destruct (contains _ (btn_classList b)); reflexivity.
Qed.

Lemma reset_style_plain (b : button) :
  plain (set_btn_classList reset_style b).
Proof.
  unfold plain, reset_style. cbn [btn_classList set_btn_classList].
  split; repeat constructor;
    rewrite contains_add_all, contains_remove_all;
    destruct (contains _ (btn_classList b)); reflexivity.
Qed.

(** The buttons of a menu once [changeDropBtnStyle] has run. *)
Lemma styled_buttons (i j : nat) (bs : list button) (b : button) :
  nth_error
    (update_nth i (set_btn_classList select_style)
       (map (set_btn_classList reset_style) bs)) j = Some b ->
  (if (j =? i)%nat then highlighted b else plain b)
  /\ option_map value (nth_error bs j) = Some (value b)
  /\ option_map _type (nth_error bs j) = Some (_type b).
Proof.
  rewrite nth_error_update_nth, nth_error_map.
  destruct (nth_error bs j) as [b0|]; destruct (j =? i)%nat; cbn;
    try discriminate; intros [= <-].
  - split; [apply select_style_highlighted | now split].
  - split; [apply reset_style_plain | now split].
Qed.

(** X12: [hideDropdown] closes the menu of a setting whatever its state:
    afterwards the menu has ["hidden"] and not ["flex"] and the chevron is
    not turned; the other tokens, the text, the buttons, the other settings
    and the rest of the page are as before.  For a setting the page does not
    hold it throws before any change. *)
Theorem hideDropdown_closes (s : string) (p : page) :
  (forall x, find s (selects p) = Some x ->
     result (hideDropdown s) p = Some tt
     /\ exists x', find s (selects (exec (hideDropdown s) p)) = Some x'
        /\ closed x'
        /\ text x' = text x
        /\ buttons x' = buttons x
        /\ (forall c, c <> "hidden" -> c <> "flex" ->
            contains c (dropdown x') = contains c (dropdown x))
        /\ (forall c, c <> "rotate-180" ->
            contains c (chevron x') = contains c (chevron x)))
  /\ (forall s', s' <> s ->
      find s' (selects (exec (hideDropdown s) p)) = find s' (selects p))
  /\ from_date_div (exec (hideDropdown s) p) = from_date_div p
  /\ to_date_div (exec (hideDropdown s) p) = to_date_div p
  /\ console (exec (hideDropdown s) p) = console p
  /\ (find s (selects p) = None -> hideDropdown s p = (None, p)).
Proof.
  destruct (find s (selects p)) as [x|] eqn:Hx.
  - unfold exec, result. rewrite (hideDropdown_run s p x Hx).
    cbn [fst snd with_select selects from_date_div to_date_div console].
    split; [|split; [|repeat split; discriminate]].
    + intros ? [= <-]. split; [reflexivity|].
      exists (close x). rewrite find_update_same, Hx by keeps.
      split; [reflexivity|]. split; [apply close_closed|].
      split; [reflexivity|]. split; [reflexivity|]. split.
      * intros c Hh Hf. unfold close.
        cbn [dropdown set_chevron set_dropdown].
        rewrite contains_remove_any, contains_add_any.
        rewrite (proj2 (String.eqb_neq _ _) Hh),
          (proj2 (String.eqb_neq _ _) Hf).
        now rewrite orb_false_r, andb_true_r.
      * intros c Hr. unfold close.
        cbn [chevron set_chevron set_dropdown].
        rewrite contains_remove_any, (proj2 (String.eqb_neq _ _) Hr).
        now rewrite andb_true_r.
    + intros s' Hs'. now rewrite find_update_other by (keeps || exact Hs').
  - destruct (missing_setting_throws s 0 None p Hx) as (Hh & _).
    unfold exec. rewrite Hh. cbn [snd].
    split; [discriminate|]. repeat split.
Qed.

Lemma click_select (s : string) (disabled : bool) (p : page) :
  exec (click (SelectButton s disabled)) p
  = if disabled then p else exec (toggleSelectBtn s) p.
Proof. now destruct disabled. Qed.

(** X13: a click on a select button that is not disabled flips
    ["hidden"] and ["flex"] on the menu of its setting and ["rotate-180"]
    on its chevron, so a closed menu opens and an open one closes; text and
    buttons stay.  A click on a disabled select button changes nothing. *)
Theorem select_button_toggles (s : string) (p : page) (x : select) :
  find s (selects p) = Some x ->
  exec (click (SelectButton s true)) p = p
  /\ exists x',
       find s (selects (exec (click (SelectButton s false)) p)) = Some x'
       /\ contains "hidden" (dropdown x')
          = negb (contains "hidden" (dropdown x))
       /\ contains "flex" (dropdown x') = negb (contains "flex" (dropdown x))
       /\ contains "rotate-180" (chevron x')
          = negb (contains "rotate-180" (chevron x))
       /\ (closed x -> opened x')
       /\ (opened x -> closed x')
       /\ text x' = text x
       /\ buttons x' = buttons x.
Proof.
  intros Hx. split; [reflexivity|]. rewrite click_select.
  unfold exec. rewrite (toggleSelectBtn_run s p x Hx).
  cbn [snd with_select selects]. rewrite find_update_same, Hx by keeps.
  eexists. split; [reflexivity|]. unfold closed, opened.
  cbn [dropdown chevron text buttons set_chevron set_dropdown].
  rewrite !contains_toggle. cbn [String.eqb Ascii.eqb Bool.eqb].
  split; [reflexivity|]. split; [reflexivity|]. split; [reflexivity|].
  split; [|split; [|split; reflexivity]].
  - intros (-> & -> & ->). repeat split.
  - intros (-> & -> & ->). repeat split.
Qed.
Lemma with_select_twice (s : string) (f g : select -> select) (p : page) :
  keeps_name f ->
  with_select s g (with_select s f p) = with_select s (fun x => g (f x)) p.
Proof.
  intros Hf. unfold with_select.
  cbn [selects from_date_div to_date_div console].
  now rewrite update_update.
Qed.

Lemma find_with_select (s : string) (f : select -> select) (p : page)
    (x : select) :
  keeps_name f ->
  find s (selects p) = Some x ->
  find s (selects (with_select s f p)) = Some (f x).
Proof.
  intros Hf Hx. unfold with_select. cbn [selects].
  now rewrite find_update_same, Hx.
Qed.

Lemma find_with_select_other (s s' : string) (f : select -> select)
    (p : page) :
  keeps_name f -> s' <> s ->
  find s' (selects (with_select s f p)) = find s' (selects p).
Proof.
  intros Hf Hs. unfold with_select. cbn [selects].
  now apply find_update_other.
Qed.

Lemma hideFilterOnLocal_run (type : option string) (p : page) :
  hideFilterOnLocal type p
  = (Some tt,
     {| selects := selects p;
        from_date_div := date_style type (from_date_div p);
        to_date_div := date_style type (to_date_div p);
        console :=
          console p
          ++ [match type with Some s => Js.Str s | None => Js.null end] |}).
Proof.
  unfold hideFilterOnLocal, date_style, hideInp, showInp, bind, ret,
    set_div, console_log.
  cbn [selects from_date_div to_date_div console].
  now destruct (is_local type).
Qed.

(** A click on the button at position [i] of the menu of [s]. *)
Lemma click_menu (s : string) (i : nat) (p : page) (x : select)
    (b : button) :
  find s (selects p) = Some x ->
  nth_error (buttons x) i = Some b ->
  exec (click (DropdownButton s i)) p
  = if match value b with Some v => text x =? v | None => false end
    then with_select s close p
    else
      exec (if s =? "instances" then hideFilterOnLocal (_type b) else ret tt)
        (with_select s
           (fun x =>
              restyle i
                (close
                   (set_text
                      (match value b with Some v => v | None => "" end) x)))
           p).
Proof.
  intros Hx Hb.
  unfold click, try_catch, exec, clicked. unfold bind at 1 2. cbn [snd ret].
  rewrite Hx, Hb. unfold bind at 1.
  rewrite (isSameValue_run s (value b) p x Hx).
  destruct (match value b with Some v => text x =? v | None => false end).
  - now rewrite (hideDropdown_run s p x Hx).
  - unfold bind at 1. rewrite (setSelectNewValue_run s (value b) p x Hx).
    set (v := match value b with Some v => v | None => "" end).
    unfold bind at 1.
    rewrite (hideDropdown_run s _ (set_text v x))
      by (apply (find_with_select s (set_text v)); [keeps | exact Hx]).
    rewrite with_select_twice by keeps.
    unfold bind at 1.
    rewrite (changeDropBtnStyle_run s i _ (close (set_text v x)))
      by (apply (find_with_select s (fun x => close (set_text v x)));
          [keeps | exact Hx]).
    rewrite with_select_twice by keeps.
    reflexivity.
Qed.

(** X14: [changeDropBtnStyle] leaves exactly one button of the menu
    highlighted: the one at the given position carries the three highlight
    tokens and none of the three plain ones, every other button the
    reverse, whatever classes the buttons had; values and types of the
    buttons, the text and the menu state stay. *)
Theorem changeDropBtnStyle_highlights_one (s : string) (i : nat) (p : page)
    (x : select) :
  find s (selects p) = Some x ->
  exists x',
    find s (selects (exec (changeDropBtnStyle s i) p)) = Some x'
    /\ (forall j b, nth_error (buttons x') j = Some b ->
        if (j =? i)%nat then highlighted b else plain b)
    /\ map value (buttons x') = map value (buttons x)
    /\ map _type (buttons x') = map _type (buttons x)
    /\ text x' = text x
    /\ dropdown x' = dropdown x
    /\ chevron x' = chevron x.
Proof.
  intros Hx. unfold exec. rewrite (changeDropBtnStyle_run s i p x Hx).
  cbn [snd]. rewrite (find_with_select s _ p x) by (keeps || exact Hx).
  eexists. split; [reflexivity|]. cbn [buttons set_buttons text dropdown
    chevron]. split; [|split; [|split; [|repeat split]]].
  - intros j b Hb. now apply styled_buttons in Hb.
  - generalize (buttons x) as bs. intros bs. revert i.
    induction bs as [|b0 bs IH]; intros [|i]; cbn; try reflexivity.
    + now rewrite map_map.
    + now rewrite IH.
  - generalize (buttons x) as bs. intros bs. revert i.
    induction bs as [|b0 bs IH]; intros [|i]; cbn; try reflexivity.
    + now rewrite map_map.
    + now rewrite IH.
Qed.

(** X15: a click on the menu button whose value is the text already
    shown only closes the menu: the text, the buttons and their classes,
    the date inputs, the console and the other settings stay as they
    are. *)
Theorem click_on_shown_value_only_closes (s : string) (i : nat) (p : page)
    (x : select) (b : button) :
  find s (selects p) = Some x ->
  nth_error (buttons x) i = Some b ->
  value b = Some (text x) ->
  exists x',
    find s (selects (exec (click (DropdownButton s i)) p)) = Some x'
    /\ closed x'
    /\ text x' = text x
    /\ buttons x' = buttons x
    /\ (forall s', s' <> s ->
        find s' (selects (exec (click (DropdownButton s i)) p))
        = find s' (selects p))
    /\ from_date_div (exec (click (DropdownButton s i)) p) = from_date_div p
    /\ to_date_div (exec (click (DropdownButton s i)) p) = to_date_div p
    /\ console (exec (click (DropdownButton s i)) p) = console p.
Proof.
  intros Hx Hb Hv. rewrite (click_menu s i p x b Hx Hb), Hv.
  rewrite String.eqb_refl.
  exists (close x). split; [apply find_with_select; [keeps | exact Hx]|].
  split; [apply close_closed|]. split; [reflexivity|].
  split; [reflexivity|]. split; [|repeat split].
  intros s' Hs'. now apply find_with_select_other; [keeps|].
Qed.

(** X16: a click on a menu button with another value shows that value as
    the text of the setting, closes the menu and leaves the clicked button
    as the only highlighted one; the other settings stay, and so do the date
    inputs and the console unless the setting is ["instances"].  The text
    now being the value of the button, [isSameValue] answers true for it and
    a second click on the button changes nothing any more. *)
Theorem click_on_new_value_selects_it (s : string) (i : nat) (p : page)
    (x : select) (b : button) (v : string) :
  find s (selects p) = Some x ->
  nth_error (buttons x) i = Some b ->
  value b = Some v ->
  v <> text x ->
  (exists x',
     find s (selects (exec (click (DropdownButton s i)) p)) = Some x'
     /\ text x' = v
     /\ closed x'
     /\ (forall j b', nth_error (buttons x') j = Some b' ->
         if (j =? i)%nat then highlighted b' else plain b'))
  /\ (forall s', s' <> s ->
      find s' (selects (exec (click (DropdownButton s i)) p))
      = find s' (selects p))
  /\ (s <> "instances" ->
      from_date_div (exec (click (DropdownButton s i)) p) = from_date_div p
      /\ to_date_div (exec (click (DropdownButton s i)) p) = to_date_div p
      /\ console (exec (click (DropdownButton s i)) p) = console p)
  /\ result (isSameValue s (Some v)) (exec (click (DropdownButton s i)) p)
     = Some true
  /\ exec (click (DropdownButton s i)) (exec (click (DropdownButton s i)) p)
     = exec (click (DropdownButton s i)) p.
Proof.
  intros Hx Hb Hv Hne.
  assert (Hdiff : (text x =? v) = false)
    by (apply String.eqb_neq; congruence).
  set (f := fun x => restyle i (close (set_text v x))).
  set (q := with_select s f p).
  assert (Hq : find s (selects q) = Some (f x))
    by (apply find_with_select; [keeps | exact Hx]).
  assert (Hsel : selects (exec (click (DropdownButton s i)) p) = selects q).
  { rewrite (click_menu s i p x b Hx Hb), Hv, Hdiff. fold f. fold q.
    destruct (s =? "instances"); [|reflexivity].
    unfold exec. now rewrite hideFilterOnLocal_run. }
  assert (Hclosed : closed (f x)) by apply close_closed.
  assert (Hbtn : exists b', nth_error (buttons (f x)) i = Some b'
                            /\ value b' = Some v).
  { unfold f, restyle. cbn [buttons set_buttons].
    rewrite nth_error_update_nth, Nat.eqb_refl, nth_error_map.
    cbn [buttons close set_chevron set_dropdown set_text]. rewrite Hb.
    cbn. eexists. split; [reflexivity | exact Hv]. }
  split; [|split; [|split; [|split]]].
  - rewrite Hsel. exists (f x). split; [exact Hq|].
    split; [reflexivity|]. split; [exact Hclosed|].
    intros j b' Hb'. unfold f, restyle in Hb'.
    cbn [buttons set_buttons] in Hb'. now apply styled_buttons in Hb'.
  - intros s' Hs'. rewrite Hsel. now apply find_with_select_other; [keeps|].
  - intros Hs. apply String.eqb_neq in Hs.
    rewrite (click_menu s i p x b Hx Hb), Hv, Hdiff, Hs. repeat split.
  - unfold result. rewrite (isSameValue_run s (Some v) _ (f x))
      by (rewrite Hsel; exact Hq).
    cbn [fst]. unfold f, restyle.
    cbn [text set_buttons close set_chevron set_dropdown set_text].
    now rewrite String.eqb_refl.
  - destruct Hbtn as (b' & Hb' & Hv').
    rewrite (click_menu s i _ (f x) b') by (rewrite ?Hsel; assumption).
    rewrite Hv'.
    replace (text (f x)) with v by reflexivity.
    rewrite String.eqb_refl.
    apply (with_select_fixed s close _ (f x));
      [rewrite Hsel; exact Hq | now apply close_of_closed].
Qed.

(** X17: choosing an instance hides or shows the date inputs.  A click on
    a button of the ["instances"] menu whose value is not the text shown
    logs the [_type] of the button and then leaves each [div] of a date
    input with ["hidden"] and without ["flex"] if that type is ["local"],
    with ["flex"] and without ["hidden"] if it is anything else or
    missing; the other tokens of the two [div]s stay. *)
Theorem choosing_instance_sets_date_inputs (i : nat) (p : page)
    (x : select) (b : button) :
  find "instances" (selects p) = Some x ->
  nth_error (buttons x) i = Some b ->
  match value b with Some v => text x =? v | None => false end = false ->
  contains "hidden"
    (from_date_div (exec (click (DropdownButton "instances" i)) p))
  = is_local (_type b)
  /\ contains "flex"
       (from_date_div (exec (click (DropdownButton "instances" i)) p))
     = negb (is_local (_type b))
  /\ contains "hidden"
       (to_date_div (exec (click (DropdownButton "instances" i)) p))
     = is_local (_type b)
  /\ contains "flex"
       (to_date_div (exec (click (DropdownButton "instances" i)) p))
     = negb (is_local (_type b))
  /\ (forall c, c <> "hidden" -> c <> "flex" ->
      contains c
        (from_date_div (exec (click (DropdownButton "instances" i)) p))
      = contains c (from_date_div p)
      /\ contains c
           (to_date_div (exec (click (DropdownButton "instances" i)) p))
         = contains c (to_date_div p))
  /\ console (exec (click (DropdownButton "instances" i)) p)
     = (console p
        ++ [match _type b with Some s => Js.Str s | None => Js.null end])%list.
Proof.
  intros Hx Hb Hdiff. rewrite (click_menu "instances" i p x b Hx Hb), Hdiff.
  cbn [String.eqb Ascii.eqb Bool.eqb]. unfold exec.
  rewrite hideFilterOnLocal_run.
  cbn [snd from_date_div to_date_div console with_select]. unfold date_style.
  destruct (is_local (_type b));
    rewrite ?contains_remove_any, ?contains_add_any; cbn;
    rewrite ?orb_true_r, ?andb_false_r, ?andb_true_r, ?orb_false_r;
    repeat split; try reflexivity;
    rewrite ?contains_remove_any, ?contains_add_any,
      (proj2 (String.eqb_neq _ _) H), (proj2 (String.eqb_neq _ _) H0);
    now rewrite orb_false_r, andb_true_r.
Qed.

(** X18: the click listener never lets an exception escape, and a click
    that is on no button, on a button without the attributes of the class,
    on a disabled select button, or on a button of a setting the page does
    not hold leaves the page as it is. *)
Theorem inert_clicks (e : target) (s : string) (i : nat) (d : bool)
    (p : page) :
  result (click e) p = Some tt
  /\ exec (click NoButton) p = p
  /\ exec (click OtherButton) p = p
  /\ exec (click (SelectButton s true)) p = p
  /\ (find s (selects p) = None ->
      exec (click (SelectButton s d)) p = p
      /\ exec (click (DropdownButton s i)) p = p).
Proof.
  split; [reflexivity|]. repeat split.
  - rewrite click_select. destruct d; [reflexivity|].
    destruct (missing_setting_throws s i None p H) as (_ & Ht & _).
    unfold exec. now rewrite Ht.
  - unfold click, try_catch, exec, clicked, bind. cbn [snd ret].
    now rewrite H.
Qed.
End DropdownClaims.

(** ** The further properties on the sample pages *)

Section MoreSamples.
Import Js Dom FetchLogs Session Samples.
#[local] Existing Instance decimal_host.

Lemma filter_only_toggles_hidden_sample :
  map (fun el => contains "grid" (classList el))
    (fst (FilterLogs.filter {| FilterLogs.lastType := "error" |} "reload"
            sample_rows))
  = [true; true; true].
Proof.
  destruct (filter_only_toggles_hidden {| FilterLogs.lastType := "error" |}
              "reload" sample_rows) as (_ & _ & _ & _ & Hc).
  refine (eq_trans (Hc "grid" _) eq_refl). discriminate.
Defined.

Lemma filter_completion_sample :
  sample_rows <> []
  /\ snd (FilterLogs.keyword_input FilterLogs.constructor "reload"
            sample_rows)
     = FilterLogs.Throw "TypeError: this.setFilterDate is not a function"
  /\ snd (FilterLogs.type_click FilterLogs.constructor "error" "reload"
            sample_rows)
     = FilterLogs.Return.
Proof.
  assert (Hne : sample_rows <> []) by discriminate.
  destruct (proj2 (filter_completion FilterLogs.constructor "error" "reload"
                     sample_rows) Hne) as (_ & Hk & Ht & _).
  split; [exact Hne|]. split; [exact Hk | exact Ht].
Defined.

Lemma failed_cycle_stops_sample :
  status unavailable <> 200%Z
  /\ console (exec (getLogsSinceLastUpdate unavailable)
                (polling (form "bw1" NaN "5" true) 900))
     = ["Error: 503"]
  /\ timers (exec (getLogsSinceLastUpdate unavailable)
               (polling (form "bw1" NaN "5" true) 900))
     = [].
Proof.
  assert (Hs : status unavailable <> 200%Z) by discriminate.
  destruct (failed_cycle_stops unavailable
              (polling (form "bw1" NaN "5" true) 900) Hs) as (_ & Hp & _).
  split; [exact Hs|]. rewrite Hp. split; reflexivity.
Defined.

Lemma click_during_live_poll_defers_sample :
  timers (exec (init_click (ok 1000)) (polling (form "bw2" NaN "9" true) 900))
  = [{| handler := SubmitSettings; delay := Str "9" |}]
  /\ instanceName
       (this (exec (init_click (ok 1000))
                (polling (form "bw2" NaN "9" true) 900)))
     = "bw2".
Proof.
  rewrite (click_during_live_poll_defers (ok 1000)
             (polling (form "bw2" NaN "9" true) 900) eq_refl eq_refl).
  split; reflexivity.
Defined.


Lemma refused_name_reaches_next_poll_sample :
  fetched (exec (run GetLogsSinceLastUpdate (ok 1200))
             (exec (run SubmitSettings (ok 1000))
                (polling (form "none" NaN "5" true) 900)))
  = ["http://ui.example/logs/none?last_update=900"].
Proof.
  exact (proj2 (proj2 (refused_name_reaches_next_poll
           (polling (form "none" NaN "5" true) 900) (ok 1000) (ok 1200)
           (or_intror eq_refl)))).
Defined.

Lemma click_during_live_poll_doubles_it_sample :
  fetch_timers
    (timers
       (play [Click (ok 1000); Fire GetLogsSinceLastUpdate (ok 1100);
              Fire SubmitSettings (ok 1200)]
          (polling (form "bw1" NaN "5" true) 900)))
  = [ {| handler := SubmitSettings; delay := Str "5" |};
      {| handler := GetLogsSinceLastUpdate; delay := Str "5" |};
      {| handler := GetLogsSinceLastUpdate; delay := Str "5" |} ].
Proof.
  exact (proj1 (proj2 (click_during_live_poll_doubles_it
           (polling (form "bw1" NaN "5" true) 900)
           (ok 1000) (ok 1100) (ok 1200)
           eq_refl eq_refl eq_refl eq_refl eq_refl eq_refl eq_refl))).
Defined.
End MoreSamples.

Section DropdownSampleFacts.
Import Dom LogsDropdown DropdownSamples.

Lemma hideDropdown_closes_sample :
  closed (close instances)
  /\ find "types" (selects (exec (hideDropdown "instances") sample_page))
     = Some types
  /\ hideDropdown "dates"%string sample_page = (None, sample_page).
Proof.
  destruct (hideDropdown_closes "instances" sample_page)
    as (Hfound & Hothers & _).
  destruct (Hfound instances eq_refl) as (_ & x' & Hx' & Hclosed & _).
  injection Hx' as <-.
  split; [exact Hclosed|]. split.
  - refine (eq_trans (Hothers "types" _) eq_refl). discriminate.
  - exact (proj2 (proj2 (proj2 (proj2 (proj2
             (hideDropdown_closes "dates" sample_page))))) eq_refl).
Defined.

Lemma select_button_toggles_sample :
  exists x',
    find "types" (selects (exec (click (SelectButton "types" false))
                             sample_page)) = Some x'
    /\ opened x'.
Proof.
  destruct (select_button_toggles "types" sample_page types eq_refl)
    as (_ & x' & Hx' & _ & _ & _ & Hopen & _).
  exists x'. split; [exact Hx'|]. apply Hopen. repeat split.
Defined.

Lemma changeDropBtnStyle_highlights_one_sample :
  exists x',
    find "instances"
      (selects (exec (changeDropBtnStyle "instances" 2) sample_page))
    = Some x'
    /\ map value (buttons x') = [Some "local"; Some "bw1"; Some "bw2"].
Proof.
  destruct (changeDropBtnStyle_highlights_one "instances" 2 sample_page
              instances eq_refl) as (x' & Hx' & _ & Hv & _).
  exists x'. split; [exact Hx' | exact Hv].
Defined.

Lemma click_on_shown_value_only_closes_sample :
  exists x',
    find "instances"
      (selects (exec (click (DropdownButton "instances" 1)) sample_page))
    = Some x'
    /\ closed x'
    /\ text x' = "bw1".
Proof.
  destruct (click_on_shown_value_only_closes "instances" 1 sample_page
              instances (entry "bw1" "container"
                           ["border"; "bg-primary"; "text-gray-300"])
              eq_refl eq_refl eq_refl)
    as (x' & Hx' & Hclosed & Htext & _).
  exists x'. split; [exact Hx'|]. split; [exact Hclosed | exact Htext].
Defined.

Lemma click_on_new_value_selects_it_sample :
  (exists x',
     find "types"
       (selects (exec (click (DropdownButton "types" 1)) sample_page))
     = Some x'
     /\ text x' = "error")
  /\ from_date_div (exec (click (DropdownButton "types" 1)) sample_page)
     = ["relative"; "flex"].
Proof.
  assert (Hne : "error"%string <> text types) by discriminate.
  destruct (click_on_new_value_selects_it "types" 1 sample_page types
              (entry "error" "" ["border"; "bg-white"; "text-gray-700"])
              "error" eq_refl eq_refl eq_refl Hne)
    as ((x' & Hx' & Htext & _) & _ & Hdates & _).
  split.
  - exists x'. split; [exact Hx' | exact Htext].
  - refine (proj1 (Hdates _)). discriminate.
Defined.

Lemma choosing_instance_sets_date_inputs_sample :
  contains "hidden"
    (from_date_div (exec (click (DropdownButton "instances" 0)) sample_page))
  = true
  /\ contains "hidden"
       (to_date_div (exec (click (DropdownButton "instances" 2)) sample_page))
     = false.
Proof.
  split.
  - exact (proj1 (choosing_instance_sets_date_inputs 0 sample_page instances
             (entry "local" "local" ["border"; "bg-white"; "text-gray-700"])
             eq_refl eq_refl eq_refl)).
  - exact (proj1 (proj2 (proj2 (choosing_instance_sets_date_inputs 2
             sample_page instances
             (entry "bw2" "container"
                ["border"; "bg-white"; "text-gray-700"])
             eq_refl eq_refl eq_refl)))).
Defined.

Lemma inert_clicks_sample :
  exec (click (DropdownButton "dates" 0)) sample_page = sample_page
  /\ exec (click (SelectButton "dates" false)) sample_page = sample_page.
Proof.
  destruct (inert_clicks NoButton "dates" 0 false sample_page)
    as (_ & _ & _ & _ & Hmissing).
  destruct (Hmissing eq_refl) as (Hs & Hd).
  split; [exact Hd | exact Hs].
Defined.
End DropdownSampleFacts.

(** ** Rendering and filtering together *)

Section RenderAndFilter.
Import Js Dom FetchLogs.

(** X19: records rendered by [showLogs] and then filtered are shown by
    their own fields: after [filter], the row of a record is visible exactly
    when the selected type keeps the record's type and the keyword is empty
    or occurs in the record's content; the rows that were in the list
    before are judged by their texts in the same way. *)
Theorem rendered_rows_filter_by_record `{Host} (this : FilterLogs.t)
    (keyword : string) (res : body) (w : world) :
  map visible
    (fst (FilterLogs.filter this keyword
            (logListContainer (exec (showLogs res) w))))
  = (map (fun el =>
            FilterLogs.type_keeps (FilterLogs.lastType this) (logs_type el)
            && ((keyword =? "") || includes (logs_content el) keyword))
       (logListContainer w)
     ++ map (fun log =>
               FilterLogs.type_keeps (FilterLogs.lastType this) (type log)
               && ((keyword =? "") || includes (content log) keyword))
          (logs res))%list.
Proof.
  rewrite filter_visible. unfold exec. rewrite showLogs_run.
  cbn [snd logListContainer]. rewrite map_app, map_map. reflexivity.
Qed.
End RenderAndFilter.
